(** * lcd1602: HD44780 character LCD behind a PCF8574 I2C backpack

    A shallow embedding of the Go package [lcd1602] (the driver file and
    [lcd1602_options.go]) and the properties of its protocol core.

    Conventions of the embedding:
    - a Go [byte] / [uint8] is a [Z] in [0, 256); every [+] of the source that
      can leave that range is written with its wrap-around [mod 256];
    - [uint16] is a [Z] as well; [time.Duration] is a [Z] number of
      nanoseconds, as in Go's [time] package;
    - the receiver [d *Dev] is mutable, so every method is a computation in a
      state monad over the device record and the history of the bus;
    - the I2C transport is an external collaborator: it is an arbitrary
      function that decides, from the history of the bus, whether the
      transaction just attempted returns an error;
    - the calls to the logger ([log.Info], [log.Infof]) touch neither the
      device nor the bus and are left out. *)

From Stdlib Require Import ZArith List Bool Lia.
Import ListNotations.

Local Open Scope Z_scope.

(** ** Time *)

Module time.
Definition Nanosecond : Z := 1.
Definition Microsecond : Z := 1000 * Nanosecond.
Definition Millisecond : Z := 1000 * Microsecond.
End time.

(** ** The outside world: bus transactions and blocking delays *)

Inductive event : Type :=
| EvWrite (addr reg val : Z)   (* one register write attempted on the bus *)
| EvSleep (ns : Z).            (* time.Sleep *)

Definition trace := list event.

(** The transport.  [b h = true] when the transaction that ends the history
    [h] fails, that is when [Tx] returns a non-nil error. *)
Definition I2CBus := trace -> bool.

Inductive error : Type :=
| ErrTx                          (* the I/O error of the transport *)
| ErrAddrNotSupported            (* "given address not supported by device" *)
| ErrNewI2C (addr : Z) (err : error)   (* "lcd1602 %x: %v" *)
| ErrLines (line addr : Z)       (* "lcd1602 %x: device does not support %d lines" *)
| ErrCols (line addr : Z).       (* "lcd1602 %x: device does not support %d cols" *)

(** ** Constants *)

Definition CMD_Clear_Display : Z := 0x01.
Definition CMD_Return_Home : Z := 0x02.
Definition CMD_Entry_Mode : Z := 0x04.
Definition CMD_Display_Control : Z := 0x08.
Definition CMD_Cursor_Display_Shift : Z := 0x10.
Definition CMD_Function_Set : Z := 0x20.
Definition CMD_DDRAM_Set : Z := 0x80.

Definition OPT_Increment : Z := 0x02.
Definition OPT_Cursor_Shift : Z := 0x01.
Definition OPT_Enable_Display : Z := 0x04.
Definition OPT_Enable_Cursor : Z := 0x02.
Definition OPT_Enable_Blink : Z := 0x01.
Definition OPT_Display_Shift : Z := 0x08.
Definition OPT_Shift_Right : Z := 0x04.
Definition OPT_2_Lines : Z := 0x08.
Definition OPT_5x10_Dots : Z := 0x04.

Definition EN : Z := 2.
Definition WR : Z := 1.
Definition RS : Z := 0.
Definition D4 : Z := 4.
Definition D5 : Z := 5.
Definition D6 : Z := 6.
Definition D7 : Z := 7.
Definition BACKLIGHT : Z := 3.

(** ** Options (lcd1602_options.go) *)

Record Opts : Type := mkOpts {
  I2CAddr : Z;      (* uint16 *)
  Lines : Z;        (* uint8 *)
  Cols : Z;         (* uint8 *)
  CharDelay : Z     (* time.Duration *)
}.

Definition DefaultOpts : Opts :=
  {| I2CAddr := 0x27; Lines := 2; Cols := 16;
     CharDelay := 1 * time.Millisecond |}.

Definition i2cAddr (o : Opts) : Z * option error :=
  if I2CAddr o =? 0 then (0x27, None)
  else if (I2CAddr o =? 0x20) || (I2CAddr o =? 0x21) || (I2CAddr o =? 0x22)
          || (I2CAddr o =? 0x23) || (I2CAddr o =? 0x24) || (I2CAddr o =? 0x25)
          || (I2CAddr o =? 0x26) || (I2CAddr o =? 0x27)
  then (I2CAddr o, None)
  else (0, Some ErrAddrNotSupported).

(** ** The device record *)

(** [i2c.Dev{Bus, Addr}], wrapped by the source in an [mmr.Dev8] whose byte
    order plays no part in one-byte writes. *)
Record Conn : Type := mkConn {
  Bus : I2CBus;
  Addr : Z
}.

Record Dev : Type := mkDev {
  isSPI : bool;
  displayEnable : bool;
  backlight_state : bool;
  cursor : bool;
  blink : bool;
  displayShift : bool;
  shiftRight : bool;
  c : Conn;
  opts : Opts
}.

Definition set_backlight_state (v : bool) (d : Dev) : Dev :=
  mkDev (isSPI d) (displayEnable d) v (cursor d) (blink d)
        (displayShift d) (shiftRight d) (c d) (opts d).

Definition set_displayShift (v : bool) (d : Dev) : Dev :=
  mkDev (isSPI d) (displayEnable d) (backlight_state d) (cursor d) (blink d)
        v (shiftRight d) (c d) (opts d).

Definition set_shiftRight (v : bool) (d : Dev) : Dev :=
  mkDev (isSPI d) (displayEnable d) (backlight_state d) (cursor d) (blink d)
        (displayShift d) v (c d) (opts d).

(** ** The monad of the methods of [*Dev] *)

Definition world : Type := Dev * trace.

Definition M (A : Type) : Type := world -> A * world.

Definition ret {A} (a : A) : M A := fun w => (a, w).

Definition bind {A B} (m : M A) (k : A -> M B) : M B :=
  fun w => let (a, w') := m w in k a w'.

Notation "x <- m ;; k" := (bind m (fun x => k))
  (at level 61, m at next level, right associativity).
Notation "m ;; k" := (bind m (fun _ => k))
  (at level 61, right associativity).

Definition self : M Dev := fun w => (fst w, w).

Definition modify (f : Dev -> Dev) : M unit := fun w => (tt, (f (fst w), snd w)).

(** [d.c.WriteUint8(reg, v)]: one transaction on the bus; the error of the
    transport is the result. *)
Definition WriteUint8 (reg v : Z) : M (option error) :=
  fun w =>
    let d := fst w in
    let h := snd w ++ [EvWrite (Addr (c d)) reg v] in
    (if Bus (c d) h then Some ErrTx else None, (d, h)).

Definition Sleep (ns : Z) : M unit :=
  fun w => (tt, (fst w, snd w ++ [EvSleep ns])).

(** ** The driver *)

Definition pinInterpret (pin data : Z) (value : bool) : Z :=
  if value then
    let mask := Z.shiftl 0x01 pin mod 256 in
    Z.lor data mask
  else
    let mask := Z.lxor (Z.shiftl 0x01 pin mod 256) 0xFF in
    Z.land data mask.

Definition enable (data : Z) : M unit :=
  d <- self ;;
  let data := if backlight_state d
              then pinInterpret BACKLIGHT data true
              else pinInterpret BACKLIGHT data false in
  _ <- WriteUint8 0 data ;;
  Sleep (40 * time.Microsecond) ;;
  _ <- WriteUint8 0 (pinInterpret EN data true) ;;
  Sleep (40 * time.Microsecond) ;;
  _ <- WriteUint8 0 data ;;
  ret tt.

Definition write (data : Z) (command : bool) : M unit :=
  let i2c_data := 0 in
  let hi_nibble := Z.shiftr data 4 in
  let i2c_data := pinInterpret D4 i2c_data (Z.land hi_nibble 0x01 =? 0x01) in
  let i2c_data := pinInterpret D5 i2c_data (Z.land (Z.shiftr hi_nibble 1) 0x01 =? 0x01) in
  let i2c_data := pinInterpret D6 i2c_data (Z.land (Z.shiftr hi_nibble 2) 0x01 =? 0x01) in
  let i2c_data := pinInterpret D7 i2c_data (Z.land (Z.shiftr hi_nibble 3) 0x01 =? 0x01) in
  let i2c_data := if negb command then pinInterpret RS i2c_data true else i2c_data in
  enable i2c_data ;;
  let i2c_data := 0x00 in
  let low_nibble := Z.land data 0x0F in
  let i2c_data := pinInterpret D4 i2c_data (Z.land low_nibble 0x01 =? 0x01) in
  let i2c_data := pinInterpret D5 i2c_data (Z.land (Z.shiftr low_nibble 1) 0x01 =? 0x01) in
  let i2c_data := pinInterpret D6 i2c_data (Z.land (Z.shiftr low_nibble 2) 0x01 =? 0x01) in
  let i2c_data := pinInterpret D7 i2c_data (Z.land (Z.shiftr low_nibble 3) 0x01 =? 0x01) in
  let i2c_data := if negb command then pinInterpret RS i2c_data true else i2c_data in
  enable i2c_data.

Definition command (data : Z) : M unit := write data true.

Definition WriteCell (char : Z) : M unit := write (Z.lor 0x40 char) false.

Definition writeEntryMode : M unit :=
  d <- self ;;
  let option := CMD_Entry_Mode in
  let option := if negb (shiftRight d) then Z.lor option OPT_Increment else option in
  let option := if displayShift d then Z.lor option OPT_Cursor_Shift else option in
  command option.

Definition writeDisplaySwitch : M unit :=
  d <- self ;;
  let option := CMD_Display_Control in
  let option := if displayEnable d then Z.lor option OPT_Enable_Display else option in
  let option := if cursor d then Z.lor option OPT_Enable_Cursor else option in
  let option := if blink d then Z.lor option OPT_Enable_Blink else option in
  command option.

Definition DisplayShift (right : bool) : M unit :=
  let option := Z.lor CMD_Cursor_Display_Shift OPT_Display_Shift in
  let option := if right then Z.lor option OPT_Shift_Right else option in
  command option.

Definition CursorShift (right : bool) : M unit :=
  let option := CMD_Cursor_Display_Shift in
  let option := if right then Z.lor option OPT_Shift_Right else option in
  command option.

Definition SetDisplayShift (value : bool) : M unit :=
  modify (set_displayShift value) ;;
  writeEntryMode.

Definition SetShiftRight (value : bool) : M unit :=
  modify (set_shiftRight value) ;;
  writeEntryMode.

Definition SetBacklight (on : bool) : M unit :=
  _ <- WriteUint8 0 (pinInterpret BACKLIGHT 0x00 on) ;;
  modify (set_backlight_state on).

Definition Clear : M unit := command CMD_Clear_Display.

Definition Home : M unit := command CMD_Return_Home.

Definition Halt : M (option error) :=
  Clear ;;
  SetBacklight false ;;
  ret None.

Definition SetPosition (line pos : Z) : M (option error) :=
  d <- self ;;
  if line >? Lines (opts d) then
    ret (Some (ErrLines line (I2CAddr (opts d))))
  else if pos >? Cols (opts d) then
    ret (Some (ErrCols line (I2CAddr (opts d))))
  else
    let address :=
      if line =? 1 then pos
      else if line =? 2 then (0x40 + pos) mod 256
      else if line =? 3 then (0x10 + pos) mod 256
      else if line =? 4 then (0x50 + pos) mod 256
      else 0 in
    command ((CMD_DDRAM_Set + address) mod 256) ;;
    ret None.

Fixpoint Write_loop (buf : list Z) : M unit :=
  match buf with
  | [] => ret tt
  | ch :: rest =>
      write ch false ;;
      d <- self ;;
      Sleep (CharDelay (opts d)) ;;
      Write_loop rest
  end.

Definition Write (buf : list Z) : M (Z * option error) :=
  Write_loop buf ;;
  ret (Z.of_nat (length buf), None).

Definition WriteChar (char : Z) : M (option error) :=
  write char false ;;
  CursorShift false ;;
  ret None.

Definition Right : M Z :=
  d <- self ;;
  ret (Cols (opts d)).

(** The body of [makeDev] after the record literal, run on the new device. *)
Definition makeDev_init : M unit :=
  let data := 0 in
  let data := pinInterpret D4 data true in
  let data := pinInterpret D5 data true in
  enable data ;;
  Sleep (200 * time.Millisecond) ;;
  enable data ;;
  Sleep (100 * time.Millisecond) ;;
  enable data ;;
  Sleep (100 * time.Millisecond) ;;
  let data := pinInterpret D4 data false in
  enable data ;;
  Sleep (10 * time.Millisecond) ;;
  command (Z.lor CMD_Function_Set OPT_2_Lines) ;;
  writeDisplaySwitch ;;
  writeEntryMode ;;
  command CMD_Clear_Display.

(** [makeDev]: the fields the literal leaves out ([backlight_state]) take
    Go's zero value. *)
Definition makeDev (conn : Conn) (isSPI : bool) (o : Opts) (h : trace)
  : (option Dev * option error) * trace :=
  let d := {| displayEnable := true;
              cursor := true;
              blink := true;
              displayShift := false;
              shiftRight := false;
              opts := o;
              isSPI := isSPI;
              c := conn;
              backlight_state := false |} in
  let (_, w) := makeDev_init (d, h) in
  ((Some (fst w), None), snd w).

(** [NewI2C]: [o = None] is the nil pointer. *)
Definition NewI2C (b : I2CBus) (o : option Opts) (h : trace)
  : (option Dev * option error) * trace :=
  let o := match o with None => DefaultOpts | Some o => o end in
  let (addr, err) := i2cAddr o in
  match err with
  | Some err => ((None, Some (ErrNewI2C addr err)), h)
  | None =>
      let (r, h') := makeDev {| Bus := b; Addr := addr |} false o h in
      match snd r with
      | Some err => ((None, Some err), h')
      | None => ((fst r, None), h')
      end
  end.

(** ** The public methods as one type of calls *)

Inductive call : Type :=
| CHalt
| CSetBacklight (on : bool)
| CClear
| CHome
| CSetPosition (line pos : Z)
| CWrite (buf : list Z)
| CWriteChar (char : Z)
| CRight
| CSetDisplayShift (value : bool)
| CSetShiftRight (value : bool)
| CDisplayShift (right : bool)
| CCursorShift (right : bool)
| CWriteCell (char : Z).

(** The error a call hands back to its caller; a method without an error
    result has none to hand back. *)
Definition invoke (k : call) : M (option error) :=
  match k with
  | CHalt => Halt
  | CSetBacklight on => SetBacklight on ;; ret None
  | CClear => Clear ;; ret None
  | CHome => Home ;; ret None
  | CSetPosition line pos => SetPosition line pos
  | CWrite buf => r <- Write buf ;; ret (snd r)
  | CWriteChar char => WriteChar char
  | CRight => Right ;; ret None
  | CSetDisplayShift value => SetDisplayShift value ;; ret None
  | CSetShiftRight value => SetShiftRight value ;; ret None
  | CDisplayShift to_right => DisplayShift to_right ;; ret None
  | CCursorShift to_right => CursorShift to_right ;; ret None
  | CWriteCell char => WriteCell char ;; ret None
  end.

(** The calls whose bus traffic goes through [write] and [enable] only. *)
Definition nibble_path (k : call) : bool :=
  match k with
  | CHalt | CSetBacklight _ => false
  | _ => true
  end.

Fixpoint invoke_all (ks : list call) : M unit :=
  match ks with
  | [] => ret tt
  | k :: ks' => invoke k ;; invoke_all ks'
  end.

(** ** Vocabulary of the statements *)

Definition b2z (b : bool) : Z := if b then 1 else 0.

(** The expander byte that presents a nibble on D7..D4 with register-select
    [rs] and backlight [bl], enable low. *)
Definition frame (nibble : Z) (rs bl : bool) : Z :=
  16 * nibble + 8 * b2z bl + b2z rs.

(** One enable pulse around the byte [x], on the device at address [a]. *)
Definition pulse (a x : Z) : trace :=
  [ EvWrite a 0 x; EvSleep (40 * time.Microsecond);
    EvWrite a 0 (Z.setbit x EN); EvSleep (40 * time.Microsecond);
    EvWrite a 0 x ].

(** The bus image of one byte: high nibble, then low nibble. *)
Definition byte_wire (a : Z) (bl : bool) (data : Z) (is_command : bool) : trace :=
  pulse a (frame (data / 16) (negb is_command) bl)
  ++ pulse a (frame (data mod 16) (negb is_command) bl).

(** The bus image of the construction of a device at address [a]. *)
Definition init_wire (a : Z) : trace :=
  pulse a 0x30 ++ [EvSleep (200 * time.Millisecond)]
  ++ pulse a 0x30 ++ [EvSleep (100 * time.Millisecond)]
  ++ pulse a 0x30 ++ [EvSleep (100 * time.Millisecond)]
  ++ pulse a 0x20 ++ [EvSleep (10 * time.Millisecond)]
  ++ byte_wire a false 0x28 true
  ++ byte_wire a false 0x0F true
  ++ byte_wire a false 0x06 true
  ++ byte_wire a false 0x01 true.

(** The display-control and entry-mode command bytes of a device state. *)
Definition display_control_byte (d : Dev) : Z :=
  8 + 4 * b2z (displayEnable d) + 2 * b2z (cursor d) + b2z (blink d).

Definition entry_mode_byte (d : Dev) : Z :=
  4 + 2 * b2z (negb (shiftRight d)) + b2z (displayShift d).

(** The options [NewI2C] works with: the default ones for a nil pointer. *)
Definition opts_or_default (o : option Opts) : Opts :=
  match o with None => DefaultOpts | Some o => o end.

(** The addresses the expander can be strapped to, and the zero that stands
    for the default. *)
Definition legal_address (a : Z) : Prop := a = 0 \/ 0x20 <= a <= 0x27.

(** Base of each display line in DDRAM. *)
Definition base (line : Z) : Z :=
  if line =? 1 then 0x00
  else if line =? 2 then 0x40
  else if line =? 3 then 0x10
  else if line =? 4 then 0x50
  else 0.

(** The lines the address switch of [SetPosition] has a case for. *)
Definition on_table (line : Z) : bool :=
  (line =? 1) || (line =? 2) || (line =? 3) || (line =? 4).

Definition is_write (e : event) : bool :=
  match e with EvWrite _ _ _ => true | EvSleep _ => false end.

(** An event that does not switch the backlight off. *)
Definition lit (e : event) : Prop :=
  match e with
  | EvWrite _ _ v => Z.testbit v BACKLIGHT = true
  | EvSleep _ => True
  end.

(** The same device on another transport. *)
Definition with_bus (b : I2CBus) (d : Dev) : Dev :=
  mkDev (isSPI d) (displayEnable d) (backlight_state d) (cursor d) (blink d)
        (displayShift d) (shiftRight d) (mkConn b (Addr (c d))) (opts d).

(** A computation that cannot tell one transport from another. *)
Definition bus_blind {A} (m : M A) : Prop :=
  forall b d h,
    m (with_bus b d, h) =
    (fst (m (d, h)), (with_bus b (fst (snd (m (d, h)))), snd (snd (m (d, h))))).

(** A computation that leaves the backlight flag as it found it and, when
    the flag is on, switches the backlight off in none of its bus writes. *)
Definition keeps_backlight {A} (m : M A) : Prop :=
  forall d h,
    backlight_state (fst (snd (m (d, h)))) = backlight_state d /\
    exists out, snd (snd (m (d, h))) = h ++ out
                /\ (backlight_state d = true -> Forall lit out).

(** Two transports, and two devices as [NewI2C] makes them. *)
Definition bus_ok : I2CBus := fun _ => false.
Definition bus_dead : I2CBus := fun _ => true.

Definition fresh_dev (b : I2CBus) (o : Opts) (a : Z) : Dev :=
  mkDev false true false true true false false (mkConn b a) o.

Definition wide_opts : Opts :=
  {| I2CAddr := 0x27; Lines := 2; Cols := 255;
     CharDelay := 1 * time.Millisecond |}.

(** ** Vocabulary of the further properties *)

(** The bus image of a buffer of characters sent by [Write]: each byte in
    data mode, followed by the inter-character delay. *)
Fixpoint chars_wire (a : Z) (bl : bool) (delay : Z) (buf : list Z) : trace :=
  match buf with
  | [] => []
  | ch :: rest =>
      byte_wire a bl ch false ++ [EvSleep delay] ++ chars_wire a bl delay rest
  end.

(** Bus transactions in a history, and the time spent asleep in it:
    [time.Sleep] returns at once when its duration is negative or zero. *)
Definition count_writes (t : trace) : nat := length (filter is_write t).

Fixpoint sleep_total (t : trace) : Z :=
  match t with
  | [] => 0
  | EvSleep ns :: t' => Z.max 0 ns + sleep_total t'
  | EvWrite _ _ _ :: t' => sleep_total t'
  end.

(** [frames R P m]: the computation [m] takes a device to one related to it
    by [R] and only adds events that satisfy [P] of the device it started
    from. *)
Definition frames (R : Dev -> Dev -> Prop) (P : Dev -> event -> Prop)
  {A} (m : M A) : Prop :=
  forall d h,
    R d (fst (snd (m (d, h)))) /\
    exists out, snd (snd (m (d, h))) = h ++ out /\ Forall (P d) out.

(** What no method writes: the configuration part of the device record. *)
Definition same_config (d d' : Dev) : Prop :=
  isSPI d' = isSPI d /\ displayEnable d' = displayEnable d
  /\ cursor d' = cursor d /\ blink d' = blink d
  /\ c d' = c d /\ opts d' = opts d.

(** A bus event addressed to register 0 of the device's own expander. *)
Definition to_device (d : Dev) (e : event) : Prop :=
  match e with
  | EvWrite a r _ => a = Addr (c d) /\ r = 0
  | EvSleep _ => True
  end.

Definition same_backlight (d d' : Dev) : Prop :=
  backlight_state d' = backlight_state d.

(** A bus event whose backlight bit is the backlight flag of the device. *)
Definition shows_flag (d : Dev) (e : event) : Prop :=
  match e with
  | EvWrite _ _ v => Z.testbit v BACKLIGHT = backlight_state d
  | EvSleep _ => True
  end.

(** * Properties *)

(** ** Running the nibble path *)

Lemma bind_run {A B} (m : M A) (k : A -> M B) w :
  bind m k w = k (fst (m w)) (snd (m w)).
Proof. unfold bind. destruct (m w); reflexivity. Qed.

Lemma enable_run data d h :
  enable data (d, h) =
  (tt, (d, h ++ pulse (Addr (c d)) (pinInterpret BACKLIGHT data (backlight_state d)))).
Proof.
  unfold enable, pulse.
  rewrite !bind_run. unfold self, WriteUint8, Sleep, ret. cbn [fst snd].
  rewrite <- !app_assoc. cbn [app].
  destruct (backlight_state d); reflexivity.
Qed.

(** A property of nibbles that a boolean test decides holds of all sixteen
    once the test passes on each of them. *)
Lemma nibble_forall (f : Z -> bool) :
  forallb f (map Z.of_nat (seq 0 16)) = true ->
  forall n, 0 <= n < 16 -> f n = true.
Proof.
  intros H n Hn. rewrite forallb_forall in H. apply H.
  apply in_map_iff. exists (Z.to_nat n). split; [lia |].
  apply in_seq. lia.
Qed.

Lemma andb_true_iff_eq (b : bool) (x y : Z) :
  negb b && (x =? y) = true -> b = false /\ x = y.
Proof.
  intros H. apply andb_true_iff in H. destruct H as [Hb Hxy].
  split; [now apply negb_true_iff | now apply Z.eqb_eq].
Qed.

(** The four data pins as [write] drives them from a nibble. *)
Lemma nibble_frame n (rs bl : bool) :
  0 <= n < 16 ->
  let x := pinInterpret D4 0 (Z.land n 0x01 =? 0x01) in
  let x := pinInterpret D5 x (Z.land (Z.shiftr n 1) 0x01 =? 0x01) in
  let x := pinInterpret D6 x (Z.land (Z.shiftr n 2) 0x01 =? 0x01) in
  let x := pinInterpret D7 x (Z.land (Z.shiftr n 3) 0x01 =? 0x01) in
  let x := if rs then pinInterpret RS x true else x in
  pinInterpret BACKLIGHT x bl = frame n rs bl.
Proof.
  cbv zeta. intros Hn. apply Z.eqb_eq. revert n Hn.
  apply (nibble_forall (fun n => _ =? frame n rs bl)).
  destruct rs, bl; reflexivity.
Qed.

Lemma hi_nibble_range data : 0 <= data < 256 -> 0 <= Z.shiftr data 4 < 16.
Proof.
  intros H. rewrite Z.shiftr_div_pow2 by lia. change (2 ^ 4) with 16.
  split; [apply Z.div_pos; lia | apply Z.div_lt_upper_bound; lia].
Qed.

Lemma low_nibble_range data : 0 <= data < 256 -> 0 <= Z.land data 0x0F < 16.
Proof.
  intros H. change 0x0F with (Z.ones 4). rewrite Z.land_ones by lia.
  change (2 ^ 4) with 16. apply Z.mod_pos_bound; lia.
Qed.

Lemma write_run data is_command d h :
  0 <= data < 256 ->
  write data is_command (d, h) =
  (tt, (d, h ++ byte_wire (Addr (c d)) (backlight_state d) data is_command)).
Proof.
  intros Hd. unfold write, byte_wire. cbv zeta.
  rewrite bind_run, enable_run. cbn [fst snd]. rewrite enable_run.
  rewrite <- app_assoc.
  pose proof (nibble_frame (Z.shiftr data 4) (negb is_command)
                (backlight_state d) (hi_nibble_range data Hd)) as Hhi.
  pose proof (nibble_frame (Z.land data 0x0F) (negb is_command)
                (backlight_state d) (low_nibble_range data Hd)) as Hlo.
  cbv zeta in Hhi, Hlo. rewrite Hhi, Hlo.
  rewrite Z.shiftr_div_pow2 by lia. change (2 ^ 4) with 16.
  change 0x0F with (Z.ones 4). rewrite Z.land_ones by lia.
  reflexivity.
Qed.

Lemma command_run data d h :
  0 <= data < 256 ->
  command data (d, h) =
  (tt, (d, h ++ byte_wire (Addr (c d)) (backlight_state d) data true)).
Proof. intros Hd. unfold command. apply write_run, Hd. Qed.

(** ** The bit packer *)

Lemma pin_mask pin : 0 <= pin < 8 -> Z.shiftl 0x01 pin mod 256 = 2 ^ pin.
Proof.
  intros H. rewrite Z.shiftl_1_l. apply Z.mod_small. split.
  - apply Z.pow_nonneg; lia.
  - change 256 with (2 ^ 8). apply Z.pow_lt_mono_r; lia.
Qed.

Lemma byte_high_bits b n : 0 <= b < 256 -> 8 <= n -> Z.testbit b n = false.
Proof.
  intros Hb Hn. rewrite <- (Z.mod_small b 256) by lia.
  change 256 with (2 ^ 8). apply Z.mod_pow2_bits_high. lia.
Qed.

Lemma pinInterpret_bits pin data value n :
  0 <= pin < 8 -> 0 <= data < 256 -> 0 <= n ->
  Z.testbit (pinInterpret pin data value) n =
  if n =? pin then value else Z.testbit data n.
Proof.
  intros Hp Hd Hn. unfold pinInterpret. rewrite pin_mask by assumption.
  destruct value.
  - rewrite Z.lor_spec, Z.pow2_bits_eqb by lia.
    rewrite (Z.eqb_sym pin n).
    destruct (n =? pin); [apply orb_true_r | apply orb_false_r].
  - rewrite Z.land_spec, Z.lxor_spec, Z.pow2_bits_eqb by lia.
    change 0xFF with (Z.ones 8). rewrite Z.testbit_ones_nonneg by lia.
    rewrite (Z.eqb_sym pin n).
    destruct (n =? pin) eqn:E.
    + apply Z.eqb_eq in E. subst n.
      replace (pin <? 8) with true by (symmetry; apply Z.ltb_lt; lia).
      apply andb_false_r.
    + cbn [xorb]. destruct (n <? 8) eqn:L.
      * apply andb_true_r.
      * apply Z.ltb_ge in L. rewrite (byte_high_bits data n) by lia.
        reflexivity.
Qed.

Lemma pinInterpret_range pin data value :
  0 <= pin < 8 -> 0 <= data < 256 -> 0 <= pinInterpret pin data value < 256.
Proof.
  intros Hp Hd.
  assert (E : pinInterpret pin data value mod 2 ^ 8 = pinInterpret pin data value).
  { apply Z.bits_inj'. intros n Hn.
    rewrite Z.testbit_mod_pow2 by lia.
    destruct (n <? 8) eqn:L; [reflexivity |].
    apply Z.ltb_ge in L. cbn [andb].
    rewrite pinInterpret_bits by lia.
    replace (n =? pin) with false by (symmetry; apply Z.eqb_neq; lia).
    symmetry. apply byte_high_bits; lia. }
  rewrite <- E. apply Z.mod_pos_bound. reflexivity.
Qed.

(** C8. For every pin position [P] in 0..7, every byte [b] and every boolean
    [v], [pinInterpret P b v] is a byte whose bit [P] is [v] and whose other
    bits are those of [b]; applying it a second time with the same [P] and
    [v] changes nothing. *)
Theorem pinInterpret_sets_one_bit (P b : Z) (v : bool) :
  0 <= P < 8 -> 0 <= b < 256 ->
  Z.testbit (pinInterpret P b v) P = v
  /\ (forall n, 0 <= n -> n <> P ->
        Z.testbit (pinInterpret P b v) n = Z.testbit b n)
  /\ 0 <= pinInterpret P b v < 256
  /\ pinInterpret P (pinInterpret P b v) v = pinInterpret P b v.
Proof.
  intros HP Hb. repeat split.
  - rewrite pinInterpret_bits by lia. now rewrite Z.eqb_refl.
  - intros n Hn Hne. rewrite pinInterpret_bits by lia.
    apply Z.eqb_neq in Hne. now rewrite Hne.
  - apply pinInterpret_range; assumption.
  - apply pinInterpret_range; assumption.
  - unfold pinInterpret. destruct v; cbv zeta.
    + now rewrite <- Z.lor_assoc, Z.lor_diag.
    + now rewrite <- Z.land_assoc, Z.land_diag.
Qed.

Lemma pinInterpret_sets_one_bit_witness :
  Z.testbit (pinInterpret 5 0x41 true) 5 = true
  /\ (forall n, 0 <= n -> n <> 5 ->
        Z.testbit (pinInterpret 5 0x41 true) n = Z.testbit 0x41 n)
  /\ 0 <= pinInterpret 5 0x41 true < 256
  /\ pinInterpret 5 (pinInterpret 5 0x41 true) true = pinInterpret 5 0x41 true.
Proof. apply (pinInterpret_sets_one_bit 5 0x41 true); lia. Defined.

(** ** The nibble transmitter *)

Lemma frame_enable_low n (rs bl : bool) :
  0 <= n < 16 ->
  Z.testbit (frame n rs bl) EN = false
  /\ Z.setbit (frame n rs bl) EN = frame n rs bl + 4.
Proof.
  intros Hn. apply andb_true_iff_eq. revert n Hn.
  apply (nibble_forall
           (fun n => negb (Z.testbit (frame n rs bl) EN)
                     && (Z.setbit (frame n rs bl) EN =? frame n rs bl + 4))).
  destruct rs, bl; reflexivity.
Qed.

(** C6. Every byte handed to [write], command or character data, goes out as
    exactly two enable pulses, the high nibble first and the low nibble
    second.  Each pulse is three consecutive bus writes around the same
    output byte: enable bit clear, enable bit set (the byte plus 4), enable bit
    clear again, with a sleep of 40 microseconds after each of the first two
    writes.  The device record is left as it was. *)
Theorem write_two_enable_pulses (data : Z) (is_command : bool) (d : Dev) (h : trace) :
  0 <= data < 256 ->
  let a := Addr (c d) in
  let hi := frame (data / 16) (negb is_command) (backlight_state d) in
  let lo := frame (data mod 16) (negb is_command) (backlight_state d) in
  write data is_command (d, h) =
    (tt, (d, h ++ [ EvWrite a 0 hi; EvSleep 40000;
                    EvWrite a 0 (hi + 4); EvSleep 40000;
                    EvWrite a 0 hi;
                    EvWrite a 0 lo; EvSleep 40000;
                    EvWrite a 0 (lo + 4); EvSleep 40000;
                    EvWrite a 0 lo ]))
  /\ Z.testbit hi EN = false /\ Z.testbit (hi + 4) EN = true
  /\ Z.testbit lo EN = false /\ Z.testbit (lo + 4) EN = true.
Proof.
  intros Hd a hi lo.
  assert (Hhi : 0 <= data / 16 < 16)
    by (split; [apply Z.div_pos; lia | apply Z.div_lt_upper_bound; lia]).
  assert (Hlo : 0 <= data mod 16 < 16) by (apply Z.mod_pos_bound; lia).
  destruct (frame_enable_low (data / 16) (negb is_command) (backlight_state d) Hhi)
    as [Hhi0 Hhi1].
  destruct (frame_enable_low (data mod 16) (negb is_command) (backlight_state d) Hlo)
    as [Hlo0 Hlo1].
  fold hi in Hhi0, Hhi1. fold lo in Hlo0, Hlo1.
  repeat split.
  - rewrite write_run by assumption. unfold byte_wire, pulse.
    fold a hi lo. rewrite Hhi1, Hlo1. reflexivity.
  - exact Hhi0.
  - rewrite <- Hhi1. apply Z.setbit_eq. unfold EN; lia.
  - exact Hlo0.
  - rewrite <- Hlo1. apply Z.setbit_eq. unfold EN; lia.
Qed.

Lemma write_two_enable_pulses_witness :
  write 0x41 false (fresh_dev bus_ok DefaultOpts 0x27, []) =
    (tt, (fresh_dev bus_ok DefaultOpts 0x27,
          [ EvWrite 0x27 0 0x41; EvSleep 40000; EvWrite 0x27 0 0x45;
            EvSleep 40000; EvWrite 0x27 0 0x41;
            EvWrite 0x27 0 0x11; EvSleep 40000; EvWrite 0x27 0 0x15;
            EvSleep 40000; EvWrite 0x27 0 0x11 ])).
Proof.
  apply (write_two_enable_pulses 0x41 false (fresh_dev bus_ok DefaultOpts 0x27) []).
  lia.
Defined.

(** ** The address mapper *)

Lemma gtb_false a b : a <= b -> (a >? b) = false.
Proof. intros H. rewrite Z.gtb_ltb. apply Z.ltb_ge. exact H. Qed.

Lemma SetPosition_accepts line pos d h :
  line <= Lines (opts d) -> pos <= Cols (opts d) ->
  SetPosition line pos (d, h) =
  (None, (d, h ++ byte_wire (Addr (c d)) (backlight_state d)
                    ((CMD_DDRAM_Set
                      + (if on_table line then base line + pos else 0)) mod 256)
                    true)).
Proof.
  intros Hl Hp. unfold SetPosition. rewrite bind_run. unfold self. cbn [fst snd].
  replace (line >? Lines (opts d)) with false by (symmetry; apply gtb_false; lia).
  replace (pos >? Cols (opts d)) with false by (symmetry; apply gtb_false; lia).
  rewrite bind_run.
  rewrite command_run by (apply Z.mod_pos_bound; reflexivity).
  unfold ret. cbn [fst snd]. do 4 f_equal. unfold base, on_table.
  destruct (line =? 1); [reflexivity |].
  destruct (line =? 2); [now rewrite Zplus_mod_idemp_r |].
  destruct (line =? 3); [now rewrite Zplus_mod_idemp_r |].
  destruct (line =? 4); [now rewrite Zplus_mod_idemp_r |].
  reflexivity.
Qed.

Lemma SetPosition_rejects line pos d h :
  line > Lines (opts d) \/ pos > Cols (opts d) ->
  SetPosition line pos (d, h) =
  (Some (if line >? Lines (opts d)
         then ErrLines line (I2CAddr (opts d))
         else ErrCols line (I2CAddr (opts d))), (d, h)).
Proof.
  intros H. unfold SetPosition. rewrite bind_run. unfold self. cbn [fst snd].
  destruct (line >? Lines (opts d)) eqn:El; [reflexivity |].
  destruct (pos >? Cols (opts d)) eqn:Ep; [reflexivity |].
  rewrite Z.gtb_ltb in El, Ep. apply Z.ltb_ge in El, Ep. lia.
Qed.

(** C2 (amended). For every line in {1,2,3,4} not exceeding the configured
    line count and every column not exceeding the configured column count,
    [SetPosition] succeeds, leaves the device record alone and puts exactly
    one command byte on the bus: the 8-bit sum [0x80 + base line + col], that
    is this sum modulo 256, which is the sum itself whenever it is below 256. *)
Theorem SetPosition_in_range (line col : Z) (d : Dev) (h : trace) :
  line = 1 \/ line = 2 \/ line = 3 \/ line = 4 ->
  line <= Lines (opts d) -> col <= Cols (opts d) ->
  SetPosition line col (d, h) =
    (None, (d, h ++ byte_wire (Addr (c d)) (backlight_state d)
                      ((0x80 + base line + col) mod 256) true))
  /\ (0 <= col -> 0x80 + base line + col < 256 ->
      (0x80 + base line + col) mod 256 = 0x80 + base line + col).
Proof.
  intros Hline Hl Hc. split.
  - rewrite SetPosition_accepts by assumption.
    replace (on_table line) with true
      by (destruct Hline as [-> | [-> | [-> | ->]]]; reflexivity).
    now rewrite Z.add_assoc.
  - intros H0 Hlt. apply Z.mod_small.
    assert (Hb : 0 <= base line)
      by (destruct Hline as [-> | [-> | [-> | ->]]]; vm_compute; discriminate).
    lia.
Qed.

Lemma SetPosition_in_range_witness :
  SetPosition 2 5 (fresh_dev bus_ok DefaultOpts 0x27, []) =
    (None, (fresh_dev bus_ok DefaultOpts 0x27, byte_wire 0x27 false 0xC5 true)).
Proof.
  apply (SetPosition_in_range 2 5 (fresh_dev bus_ok DefaultOpts 0x27) []);
    cbn; lia.
Defined.

(** C2 as stated fails: with 255 configured columns, line 1 and column 200 are
    within bounds, and the byte that goes out is 0x48, not 0x80 + 0x00 + 200;
    its bit 7 is clear. *)
Lemma SetPosition_sum_wraps :
  200 <= Cols (opts (fresh_dev bus_ok wide_opts 0x27))
  /\ SetPosition 1 200 (fresh_dev bus_ok wide_opts 0x27, []) =
       (None, (fresh_dev bus_ok wide_opts 0x27, byte_wire 0x27 false 0x48 true))
  /\ 0x48 <> 0x80 + base 1 + 200
  /\ Z.testbit 0x48 7 = false
  /\ snd (snd (SetPosition 1 200 (fresh_dev bus_ok wide_opts 0x27, [])))
     <> byte_wire 0x27 false (0x80 + base 1 + 200) true.
Proof.
  repeat split; try (vm_compute; congruence).
Qed.

(** C3. [SetPosition line col] returns an error exactly when [line] is
    greater than the configured line count or [col] is greater than the
    configured column count; the error is one of the two out-of-range errors,
    and in that case nothing is written on the bus and the device record is
    unchanged. *)
Theorem SetPosition_error_iff (line col : Z) (d : Dev) (h : trace) :
  (fst (SetPosition line col (d, h)) <> None
     <-> (line > Lines (opts d) \/ col > Cols (opts d)))
  /\ (line > Lines (opts d) \/ col > Cols (opts d) ->
      (fst (SetPosition line col (d, h)) = Some (ErrLines line (I2CAddr (opts d)))
       \/ fst (SetPosition line col (d, h)) = Some (ErrCols line (I2CAddr (opts d))))
      /\ snd (SetPosition line col (d, h)) = (d, h)).
Proof.
  split; [split |].
  - intros Herr.
    destruct (Z_gt_dec line (Lines (opts d))) as [Hl | Hl]; [now left |].
    destruct (Z_gt_dec col (Cols (opts d))) as [Hc | Hc]; [now right |].
    exfalso. apply Herr. rewrite SetPosition_accepts by lia. reflexivity.
  - intros H. rewrite SetPosition_rejects by assumption. cbn [fst]. discriminate.
  - intros H. rewrite SetPosition_rejects by assumption. cbn [fst snd].
    split; [| reflexivity].
    destruct (line >? Lines (opts d)); [now left | now right].
Qed.

Lemma SetPosition_error_iff_witness :
  (fst (SetPosition 3 0 (fresh_dev bus_ok DefaultOpts 0x27, [])) = Some (ErrLines 3 0x27)
   \/ fst (SetPosition 3 0 (fresh_dev bus_ok DefaultOpts 0x27, [])) = Some (ErrCols 3 0x27))
  /\ snd (SetPosition 3 0 (fresh_dev bus_ok DefaultOpts 0x27, []))
     = (fresh_dev bus_ok DefaultOpts 0x27, []).
Proof.
  apply (SetPosition_error_iff 3 0 (fresh_dev bus_ok DefaultOpts 0x27) []).
  left. cbn. lia.
Defined.

(** C10. For a line that is none of 1, 2, 3, 4 and does not exceed the
    configured line count (line 0 in particular), and a column not exceeding
    the configured column count, [SetPosition] succeeds and sends the
    set-DDRAM-address command with address 0, the command byte 0x80, whatever
    the column. *)
Theorem SetPosition_other_line (line col : Z) (d : Dev) (h : trace) :
  line <> 1 -> line <> 2 -> line <> 3 -> line <> 4 ->
  line <= Lines (opts d) -> col <= Cols (opts d) ->
  SetPosition line col (d, h) =
    (None, (d, h ++ byte_wire (Addr (c d)) (backlight_state d) 0x80 true)).
Proof.
  intros H1 H2 H3 H4 Hl Hc.
  rewrite SetPosition_accepts by assumption.
  apply Z.eqb_neq in H1, H2, H3, H4. unfold on_table.
  rewrite H1, H2, H3, H4. reflexivity.
Qed.

Lemma SetPosition_other_line_witness :
  SetPosition 0 7 (fresh_dev bus_ok DefaultOpts 0x27, []) =
    (None, (fresh_dev bus_ok DefaultOpts 0x27, byte_wire 0x27 false 0x80 true)).
Proof.
  apply (SetPosition_other_line 0 7 (fresh_dev bus_ok DefaultOpts 0x27) []);
    cbn; lia.
Defined.

(** ** Construction *)

Lemma i2cAddr_zero o : I2CAddr o = 0 -> i2cAddr o = (0x27, None).
Proof. intros H. unfold i2cAddr. now rewrite H. Qed.

Lemma i2cAddr_strapped o :
  0x20 <= I2CAddr o <= 0x27 -> i2cAddr o = (I2CAddr o, None).
Proof.
  intros H. unfold i2cAddr.
  replace (I2CAddr o =? 0) with false by (symmetry; apply Z.eqb_neq; lia).
  assert (E : I2CAddr o = 0x20 \/ I2CAddr o = 0x21 \/ I2CAddr o = 0x22
              \/ I2CAddr o = 0x23 \/ I2CAddr o = 0x24 \/ I2CAddr o = 0x25
              \/ I2CAddr o = 0x26 \/ I2CAddr o = 0x27) by lia.
  repeat (destruct E as [E | E]); rewrite E; reflexivity.
Qed.

Lemma i2cAddr_other o :
  ~ legal_address (I2CAddr o) -> i2cAddr o = (0, Some ErrAddrNotSupported).
Proof.
  unfold legal_address. intros H. unfold i2cAddr.
  repeat match goal with
         | |- context [?x =? ?y] =>
             replace (x =? y) with false by (symmetry; apply Z.eqb_neq; lia)
         end.
  reflexivity.
Qed.

Lemma Sleep_run ns d h : Sleep ns (d, h) = (tt, (d, h ++ [EvSleep ns])).
Proof. reflexivity. Qed.

Lemma writeDisplaySwitch_run d h :
  writeDisplaySwitch (d, h) =
  (tt, (d, h ++ byte_wire (Addr (c d)) (backlight_state d)
                  (display_control_byte d) true)).
Proof.
  unfold writeDisplaySwitch, display_control_byte.
  rewrite bind_run. unfold self. cbn [fst snd].
  destruct (displayEnable d), (cursor d), (blink d);
    apply command_run; vm_compute; split; congruence.
Qed.

Lemma writeEntryMode_run d h :
  writeEntryMode (d, h) =
  (tt, (d, h ++ byte_wire (Addr (c d)) (backlight_state d)
                  (entry_mode_byte d) true)).
Proof.
  unfold writeEntryMode, entry_mode_byte.
  rewrite bind_run. unfold self. cbn [fst snd].
  destruct (shiftRight d), (displayShift d);
    apply command_run; vm_compute; split; congruence.
Qed.

Ltac run_step :=
  rewrite bind_run;
  first [ rewrite enable_run
        | rewrite Sleep_run
        | rewrite command_run by (vm_compute; split; congruence)
        | rewrite writeDisplaySwitch_run
        | rewrite writeEntryMode_run ];
  cbn [fst snd].

Lemma makeDev_run conn spi o h :
  makeDev conn spi o h =
  ((Some (mkDev spi true false true true false false conn o), None),
   h ++ init_wire (Addr conn)).
Proof.
  unfold makeDev, makeDev_init. cbv zeta.
  do 11 run_step.
  rewrite command_run by (vm_compute; split; congruence).
  cbn [fst snd backlight_state c]. unfold init_wire.
  repeat rewrite <- app_assoc. reflexivity.
Qed.

Lemma NewI2C_accepts b o h a :
  i2cAddr (opts_or_default o) = (a, None) ->
  NewI2C b o h =
  ((Some (fresh_dev b (opts_or_default o) a), None), h ++ init_wire a).
Proof.
  intros H. unfold NewI2C. fold (opts_or_default o). rewrite H.
  rewrite makeDev_run. reflexivity.
Qed.

Lemma NewI2C_rejects b o h a e :
  i2cAddr (opts_or_default o) = (a, Some e) ->
  NewI2C b o h = ((None, Some (ErrNewI2C a e)), h).
Proof.
  intros H. unfold NewI2C. fold (opts_or_default o). now rewrite H.
Qed.

(** C9. Address resolution succeeds exactly for 0 and for the addresses
    0x20..0x27: 0 resolves to the default 0x27, an address in 0x20..0x27 to
    itself.  [NewI2C] then returns a device bound to the resolved address and
    no error; nil options resolve to 0x27.  With any other address (0x28 for
    one) construction returns no device and the address error, without
    touching the bus. *)
Theorem address_resolution (b : I2CBus) (o : Opts) (h : trace) :
  (snd (i2cAddr o) = None <-> legal_address (I2CAddr o))
  /\ (I2CAddr o = 0 -> i2cAddr o = (0x27, None))
  /\ (0x20 <= I2CAddr o <= 0x27 -> i2cAddr o = (I2CAddr o, None))
  /\ (legal_address (I2CAddr o) ->
      exists d, fst (NewI2C b (Some o) h) = (Some d, None)
                /\ Addr (c d) = (if I2CAddr o =? 0 then 0x27 else I2CAddr o))
  /\ (~ legal_address (I2CAddr o) ->
      NewI2C b (Some o) h = ((None, Some (ErrNewI2C 0 ErrAddrNotSupported)), h))
  /\ (exists d, fst (NewI2C b None h) = (Some d, None) /\ Addr (c d) = 0x27)
  /\ (I2CAddr o = 0x28 ->
      fst (NewI2C b (Some o) h) = (None, Some (ErrNewI2C 0 ErrAddrNotSupported))).
Proof.
  assert (Hdec : legal_address (I2CAddr o) \/ ~ legal_address (I2CAddr o))
    by (unfold legal_address; lia).
  repeat apply conj.
  - intros Hnone. destruct Hdec as [Hl | Hn]; [exact Hl |].
    rewrite (i2cAddr_other o Hn) in Hnone. discriminate.
  - intros [H0 | Hs];
      [rewrite (i2cAddr_zero o H0) | rewrite (i2cAddr_strapped o Hs)];
      reflexivity.
  - apply i2cAddr_zero.
  - apply i2cAddr_strapped.
  - intros [H0 | Hs].
    + exists (fresh_dev b o 0x27). split.
      * rewrite (NewI2C_accepts b (Some o) h 0x27) by (apply i2cAddr_zero, H0).
        reflexivity.
      * rewrite H0. reflexivity.
    + exists (fresh_dev b o (I2CAddr o)). split.
      * rewrite (NewI2C_accepts b (Some o) h (I2CAddr o))
          by (apply i2cAddr_strapped, Hs).
        reflexivity.
      * cbn [fresh_dev c Addr].
        replace (I2CAddr o =? 0) with false by (symmetry; apply Z.eqb_neq; lia).
        reflexivity.
  - intros Hn. apply NewI2C_rejects. apply i2cAddr_other, Hn.
  - exists (fresh_dev b DefaultOpts 0x27). split; reflexivity.
  - intros H28.
    rewrite (NewI2C_rejects b (Some o) h 0 ErrAddrNotSupported); [reflexivity |].
    apply i2cAddr_other. unfold legal_address. cbn [opts_or_default]. lia.
Qed.

Lemma address_resolution_witness :
  fst (NewI2C bus_ok (Some (mkOpts 0x28 2 16 1000000)) [])
  = (None, Some (ErrNewI2C 0 ErrAddrNotSupported)).
Proof.
  apply (address_resolution bus_ok (mkOpts 0x28 2 16 1000000) []).
  reflexivity.
Defined.

(** C5 (amended). After a successful construction the device record has
    display-enabled true, cursor-visible true, cursor-blink true,
    display-shift-on-write false, shift-right false, and backlight-on false:
    the constructor leaves the backlight flag at its zero value. *)
Theorem NewI2C_initial_state (b : I2CBus) (o : option Opts) (h : trace) (d : Dev) :
  fst (NewI2C b o h) = (Some d, None) ->
  displayEnable d = true /\ cursor d = true /\ blink d = true
  /\ displayShift d = false /\ shiftRight d = false
  /\ backlight_state d = false.
Proof.
  intros H.
  destruct (i2cAddr (opts_or_default o)) as [a [e |]] eqn:E.
  - rewrite (NewI2C_rejects b o h a e E) in H. discriminate.
  - rewrite (NewI2C_accepts b o h a E) in H. cbn [fst] in H.
    injection H as <-. repeat split.
Qed.

Lemma NewI2C_initial_state_witness :
  displayEnable (fresh_dev bus_ok DefaultOpts 0x27) = true
  /\ cursor (fresh_dev bus_ok DefaultOpts 0x27) = true
  /\ blink (fresh_dev bus_ok DefaultOpts 0x27) = true
  /\ displayShift (fresh_dev bus_ok DefaultOpts 0x27) = false
  /\ shiftRight (fresh_dev bus_ok DefaultOpts 0x27) = false
  /\ backlight_state (fresh_dev bus_ok DefaultOpts 0x27) = false.
Proof.
  apply (NewI2C_initial_state bus_ok None [] (fresh_dev bus_ok DefaultOpts 0x27)).
  reflexivity.
Defined.

(** C5 as stated fails: the device that a successful construction with the
    default options returns has its backlight flag false. *)
Lemma NewI2C_backlight_off :
  fst (NewI2C bus_ok None []) = (Some (fresh_dev bus_ok DefaultOpts 0x27), None)
  /\ backlight_state (fresh_dev bus_ok DefaultOpts 0x27) = false
  /\ backlight_state (fresh_dev bus_ok DefaultOpts 0x27) <> true.
Proof. repeat split. discriminate. Qed.

(** ** The display state machine *)

(** C4 (amended). [SetShiftRight true] sets the shift-right flag and sends
    one entry-mode command byte in which the OPT_Increment bit is clear and
    the OPT_Cursor_Shift bit is the display-shift-on-write flag: from a state
    where that flag is false, the initial state among them, the byte is 0x04
    with both bits clear. *)
Theorem SetShiftRight_entry_mode (d : Dev) (h : trace) :
  let byte := if displayShift d
              then Z.lor CMD_Entry_Mode OPT_Cursor_Shift
              else CMD_Entry_Mode in
  SetShiftRight true (d, h) =
    (tt, (set_shiftRight true d,
          h ++ byte_wire (Addr (c d)) (backlight_state d) byte true))
  /\ Z.land byte OPT_Increment = 0
  /\ Z.land byte OPT_Cursor_Shift
     = (if displayShift d then OPT_Cursor_Shift else 0)
  /\ (displayShift d = false -> byte = 0x04).
Proof.
  cbv zeta. repeat apply conj.
  - unfold SetShiftRight. rewrite bind_run. unfold modify. cbn [fst snd].
    rewrite writeEntryMode_run. unfold entry_mode_byte.
    cbn [set_shiftRight shiftRight displayShift backlight_state c negb].
    destruct (displayShift d); reflexivity.
  - destruct (displayShift d); reflexivity.
  - destruct (displayShift d); reflexivity.
  - intros ->. reflexivity.
Qed.

(** C4 as stated fails: from the state a construction leaves,
    [SetShiftRight true] sends the command byte 0x04, whose OPT_Cursor_Shift
    bit is clear. *)
Lemma SetShiftRight_no_cursor_shift_bit :
  fst (NewI2C bus_ok None []) = (Some (fresh_dev bus_ok DefaultOpts 0x27), None)
  /\ displayShift (fresh_dev bus_ok DefaultOpts 0x27) = false
  /\ SetShiftRight true (fresh_dev bus_ok DefaultOpts 0x27, []) =
       (tt, (set_shiftRight true (fresh_dev bus_ok DefaultOpts 0x27),
             byte_wire 0x27 false 0x04 true))
  /\ Z.land 0x04 OPT_Cursor_Shift = 0
  /\ Z.testbit 0x04 0 = false.
Proof. repeat split. Qed.

(** ** The backlight during transfers *)

Create HintDb backlight.

Lemma keeps_ret {A} (a : A) : keeps_backlight (ret a).
Proof.
  intros d h. split; [reflexivity |].
  exists []. split; [now rewrite app_nil_r | constructor].
Qed.

Lemma keeps_self : keeps_backlight self.
Proof.
  intros d h. split; [reflexivity |].
  exists []. split; [now rewrite app_nil_r | constructor].
Qed.

Lemma keeps_bind {A B} (m : M A) (k : A -> M B) :
  keeps_backlight m -> (forall a, keeps_backlight (k a)) ->
  keeps_backlight (bind m k).
Proof.
  intros Hm Hk d h. rewrite bind_run.
  destruct (Hm d h) as [Hf1 [o1 [E1 Hl1]]].
  destruct (m (d, h)) as [a [d1 h1]]. cbn [fst snd] in *. subst h1.
  destruct (Hk a d1 (h ++ o1)) as [Hf2 [o2 [E2 Hl2]]].
  split; [congruence |].
  exists (o1 ++ o2). split; [now rewrite E2, app_assoc |].
  intros Hon. apply Forall_app. split; [auto |].
  apply Hl2. congruence.
Qed.

Lemma keeps_modify f :
  (forall d, backlight_state (f d) = backlight_state d) ->
  keeps_backlight (modify f).
Proof.
  intros Hf d h. unfold modify. cbn [fst snd]. split; [apply Hf |].
  exists []. split; [now rewrite app_nil_r | constructor].
Qed.

Lemma keeps_Sleep ns : keeps_backlight (Sleep ns).
Proof.
  intros d h. rewrite Sleep_run. cbn [fst snd]. split; [reflexivity |].
  exists [EvSleep ns]. split; [reflexivity |].
  intros _. repeat constructor.
Qed.

Lemma backlight_bit_set data :
  Z.testbit (pinInterpret BACKLIGHT data true) BACKLIGHT = true.
Proof.
  unfold pinInterpret. cbv zeta. rewrite Z.lor_spec.
  change (Z.testbit (Z.shiftl 1 BACKLIGHT mod 256) BACKLIGHT) with true.
  apply orb_true_r.
Qed.

Lemma keeps_enable data : keeps_backlight (enable data).
Proof.
  intros d h. rewrite enable_run. cbn [fst snd]. split; [reflexivity |].
  eexists. split; [reflexivity |].
  intros Hon. rewrite Hon. unfold pulse.
  repeat constructor; cbn [lit];
    try (rewrite Z.setbit_neq by (unfold EN, BACKLIGHT; lia));
    apply backlight_bit_set.
Qed.

#[local] Hint Resolve keeps_ret keeps_self keeps_modify keeps_Sleep
  keeps_enable : backlight.

Ltac keeps :=
  repeat first [ solve [auto with backlight] | apply keeps_bind; [| intros ? ] ].

Lemma keeps_write data is_command : keeps_backlight (write data is_command).
Proof. unfold write. cbv zeta. keeps. Qed.

#[local] Hint Resolve keeps_write : backlight.

Lemma keeps_command data : keeps_backlight (command data).
Proof. unfold command. keeps. Qed.

#[local] Hint Resolve keeps_command : backlight.

Lemma keeps_writeEntryMode : keeps_backlight writeEntryMode.
Proof. unfold writeEntryMode. keeps. Qed.

Lemma keeps_Write_loop buf : keeps_backlight (Write_loop buf).
Proof.
  induction buf as [| ch rest IH]; cbn [Write_loop]; [apply keeps_ret |].
  keeps.
Qed.

#[local] Hint Resolve keeps_writeEntryMode keeps_Write_loop : backlight.

Lemma keeps_SetPosition line pos : keeps_backlight (SetPosition line pos).
Proof.
  unfold SetPosition. apply keeps_bind; [apply keeps_self |].
  intros d. destruct (_ >? _); [apply keeps_ret |].
  destruct (_ >? _); [apply keeps_ret |]. keeps.
Qed.

#[local] Hint Resolve keeps_SetPosition : backlight.

Lemma keeps_invoke k : nibble_path k = true -> keeps_backlight (invoke k).
Proof.
  destruct k; cbn [nibble_path invoke]; intros Hk; try discriminate;
    unfold Clear, Home, Write, WriteChar, Right, SetDisplayShift,
      SetShiftRight, DisplayShift, CursorShift, WriteCell; keeps.
Qed.

Lemma keeps_invoke_all ks :
  forallb nibble_path ks = true -> keeps_backlight (invoke_all ks).
Proof.
  induction ks as [| k ks IH]; cbn [forallb invoke_all]; intros H.
  - apply keeps_ret.
  - apply andb_true_iff in H. destruct H as [Hk Hks].
    apply keeps_bind; [apply keeps_invoke, Hk | intros _; apply IH, Hks].
Qed.

(** C7. While the backlight flag is true, every byte that a sequence of
    calls going through the nibble path puts on the bus has the backlight bit
    set, and the flag is still true afterwards: no transfer clears it.  Only
    [SetBacklight false] takes it down, and from then on the bytes of a
    transfer have the backlight bit clear. *)
Theorem backlight_stays_on (ks : list call) (d : Dev) (h : trace) :
  backlight_state d = true ->
  forallb nibble_path ks = true ->
  (backlight_state (fst (snd (invoke_all ks (d, h)))) = true
   /\ exists out, snd (snd (invoke_all ks (d, h))) = h ++ out /\ Forall lit out)
  /\ backlight_state (fst (snd (SetBacklight false (d, h)))) = false.
Proof.
  intros Hon Hks. split; [| reflexivity].
  destruct (keeps_invoke_all ks Hks d h) as [Hflag [out [Eout Hlit]]].
  split; [congruence |].
  exists out. split; [exact Eout | exact (Hlit Hon)].
Qed.

Lemma backlight_stays_on_witness :
  (backlight_state
     (fst (snd (invoke_all [CClear; CSetPosition 1 0; CWrite [0x48; 0x69]]
                  (set_backlight_state true (fresh_dev bus_ok DefaultOpts 0x27),
                   [])))) = true
   /\ exists out,
       snd (snd (invoke_all [CClear; CSetPosition 1 0; CWrite [0x48; 0x69]]
                   (set_backlight_state true (fresh_dev bus_ok DefaultOpts 0x27),
                    []))) = [] ++ out
       /\ Forall lit out)
  /\ backlight_state
       (fst (snd (SetBacklight false
                    (set_backlight_state true (fresh_dev bus_ok DefaultOpts 0x27),
                     [])))) = false.
Proof.
  apply (backlight_stays_on [CClear; CSetPosition 1 0; CWrite [0x48; 0x69]]
           (set_backlight_state true (fresh_dev bus_ok DefaultOpts 0x27)) []);
    reflexivity.
Defined.

(** ** What becomes of a failed bus write *)

Create HintDb blind.

Lemma blind_ret {A} (a : A) : bus_blind (ret a).
Proof. intros b d h. reflexivity. Qed.

Lemma blind_bind {A B} (m : M A) (k : A -> M B) :
  bus_blind m -> (forall a, bus_blind (k a)) -> bus_blind (bind m k).
Proof.
  intros Hm Hk b d h. rewrite !bind_run, Hm. cbn [fst snd].
  destruct (m (d, h)) as [a [d1 h1]]. cbn [fst snd]. apply Hk.
Qed.

(** A continuation that reads the device record but not its transport. *)
Lemma blind_self_bind {B} (k : Dev -> M B) :
  (forall d, bus_blind (k d)) ->
  (forall b d w, k (with_bus b d) w = k d w) ->
  bus_blind (bind self k).
Proof.
  intros Hk Hsame b d h. rewrite !bind_run. unfold self. cbn [fst snd].
  rewrite Hsame. apply Hk.
Qed.

(** A bus write whose result the caller drops. *)
Lemma blind_discard {B} reg v (k : M B) :
  bus_blind k -> bus_blind (bind (WriteUint8 reg v) (fun _ => k)).
Proof.
  intros Hk b d h. rewrite !bind_run. unfold WriteUint8.
  cbn [fst snd with_bus c Addr]. apply Hk.
Qed.

Lemma blind_modify f :
  (forall b d, f (with_bus b d) = with_bus b (f d)) -> bus_blind (modify f).
Proof. intros Hf b d h. unfold modify. cbn [fst snd]. now rewrite Hf. Qed.

Lemma blind_Sleep ns : bus_blind (Sleep ns).
Proof. intros b d h. reflexivity. Qed.

#[local] Hint Resolve blind_ret blind_modify blind_Sleep : blind.

Ltac blind_step :=
  lazymatch goal with
  | |- bus_blind (bind (WriteUint8 _ _) _) => apply blind_discard
  | |- bus_blind (bind self _) =>
      apply blind_self_bind; [intros ? | intros; reflexivity]
  | |- bus_blind (bind _ _) => apply blind_bind; [| intros ?]
  | |- _ => solve [auto with blind]
  end.

Ltac blind := repeat blind_step.

Lemma blind_enable data : bus_blind (enable data).
Proof. unfold enable. blind. Qed.

#[local] Hint Resolve blind_enable : blind.

Lemma blind_write data is_command : bus_blind (write data is_command).
Proof. unfold write. cbv zeta. blind. Qed.

#[local] Hint Resolve blind_write : blind.

Lemma blind_command data : bus_blind (command data).
Proof. unfold command. blind. Qed.

#[local] Hint Resolve blind_command : blind.

Lemma blind_writeEntryMode : bus_blind writeEntryMode.
Proof. unfold writeEntryMode. blind. Qed.

Lemma blind_SetBacklight on : bus_blind (SetBacklight on).
Proof. unfold SetBacklight. blind. Qed.

Lemma blind_SetPosition line pos : bus_blind (SetPosition line pos).
Proof.
  unfold SetPosition. apply blind_self_bind; [| intros; reflexivity].
  intros d. destruct (_ >? _); [apply blind_ret |].
  destruct (_ >? _); [apply blind_ret |]. blind.
Qed.

Lemma blind_Write_loop buf : bus_blind (Write_loop buf).
Proof.
  induction buf as [| ch rest IH]; cbn [Write_loop]; [apply blind_ret |].
  blind.
Qed.

#[local] Hint Resolve blind_writeEntryMode blind_SetBacklight
  blind_SetPosition blind_Write_loop : blind.


Lemma fst_then_ret {A B} (m : M A) (r : B) w : fst ((m ;; ret r) w) = r.
Proof. rewrite bind_run. reflexivity. Qed.





(** * Further properties of the driver *)

(** ** The bit packer outside its eight pins, and pins against each other *)

(** X1. A pin number of 8 or more names no bit of the byte: the mask shifts
    out of the 8-bit register and [pinInterpret] hands the byte back
    unchanged, whether asked to set or to clear. *)
Theorem pinInterpret_pin_out_of_range (pin data : Z) (value : bool) :
  8 <= pin -> 0 <= data < 256 -> pinInterpret pin data value = data.
Proof.
  intros Hp Hd. unfold pinInterpret.
  assert (Hmask : Z.shiftl 0x01 pin mod 256 = 0).
  { rewrite Z.shiftl_1_l. replace pin with (8 + (pin - 8)) by lia.
    rewrite Z.pow_add_r by lia. change (2 ^ 8) with 256.
    rewrite Z.mul_comm. apply Z.mod_mul. lia. }
  rewrite Hmask. destruct value; cbv zeta.
  - apply Z.lor_0_r.
  - change (Z.lxor 0 255) with (Z.ones 8). rewrite Z.land_ones by lia.
    apply Z.mod_small. exact Hd.
Qed.

Lemma pinInterpret_pin_out_of_range_witness :
  pinInterpret 9 0xA5 true = 0xA5.
Proof. apply (pinInterpret_pin_out_of_range 9 0xA5 true); lia. Defined.

(** X2. Writes to two different pins commute, and on one pin the last write
    wins. *)
Theorem pinInterpret_pins_independent (P Q b : Z) (v w : bool) :
  0 <= P < 8 -> 0 <= Q < 8 -> 0 <= b < 256 ->
  (P <> Q ->
   pinInterpret P (pinInterpret Q b v) w = pinInterpret Q (pinInterpret P b w) v)
  /\ pinInterpret P (pinInterpret P b v) w = pinInterpret P b w.
Proof.
  intros HP HQ Hb.
  pose proof (pinInterpret_range Q b v HQ Hb) as HrQ.
  pose proof (pinInterpret_range P b w HP Hb) as HrP.
  pose proof (pinInterpret_range P b v HP Hb) as HrPv.
  split; [intros Hne |]; apply Z.bits_inj'; intros n Hn;
    repeat rewrite pinInterpret_bits by assumption.
  - destruct (n =? P) eqn:EP, (n =? Q) eqn:EQ; try reflexivity.
    apply Z.eqb_eq in EP, EQ. congruence.
  - destruct (n =? P); reflexivity.
Qed.

Lemma pinInterpret_pins_independent_witness :
  (RS <> D7 ->
   pinInterpret RS (pinInterpret D7 0x41 true) false
   = pinInterpret D7 (pinInterpret RS 0x41 false) true)
  /\ pinInterpret RS (pinInterpret RS 0x41 true) false = pinInterpret RS 0x41 false.
Proof.
  apply (pinInterpret_pins_independent RS D7 0x41 true false);
    unfold RS, D7; lia.
Defined.

(** ** What the bus carries can be read back *)

Lemma pulse_inj a x y t t' :
  pulse a x ++ t = pulse a y ++ t' -> x = y /\ t = t'.
Proof.
  unfold pulse. cbn [app]. intros H.
  injection H as Hx _ _ Ht. split; assumption.
Qed.

Lemma byte_wire_inj a bl x y cx cy t t' :
  0 <= x < 256 -> 0 <= y < 256 ->
  byte_wire a bl x cx ++ t = byte_wire a bl y cy ++ t' ->
  x = y /\ cx = cy /\ t = t'.
Proof.
  intros Hx Hy. unfold byte_wire. rewrite <- !app_assoc. intros H.
  apply pulse_inj in H. destruct H as [Hhi H].
  apply pulse_inj in H. destruct H as [Hlo Ht].
  unfold frame, b2z in Hhi, Hlo.
  assert (Hc : cx = cy) by (destruct cx, cy, bl; cbn [negb] in Hhi; first [reflexivity | exfalso; lia]).
  subst cy. repeat split; [| exact Ht].
  destruct cx, bl; cbn [negb] in Hhi, Hlo; Z.div_mod_to_equations; lia.
Qed.

(** X3. [write] loses nothing: two calls put the same events on the bus only
    if they were given the same byte and the same command/data role. *)
Theorem write_injective (data data' : Z) (is_command is_command' : bool)
  (d : Dev) (h : trace) :
  0 <= data < 256 -> 0 <= data' < 256 ->
  snd (snd (write data is_command (d, h)))
  = snd (snd (write data' is_command' (d, h))) ->
  data = data' /\ is_command = is_command'.
Proof.
  intros Hd Hd' H. rewrite !write_run in H by assumption. cbn [snd] in H.
  apply app_inv_head in H.
  rewrite <- (app_nil_r (byte_wire _ _ data _)) in H.
  rewrite <- (app_nil_r (byte_wire _ _ data' _)) in H.
  apply byte_wire_inj in H; [| assumption | assumption].
  destruct H as [H1 [H2 _]]. split; assumption.
Qed.

Lemma write_injective_witness : 0x41 = 0x41 /\ false = false.
Proof.
  apply (write_injective 0x41 0x41 false false
           (fresh_dev bus_ok DefaultOpts 0x27) []); [lia | lia | reflexivity].
Defined.

(** ** Sending text *)

Lemma Write_loop_run buf d h :
  Forall (fun ch => 0 <= ch < 256) buf ->
  Write_loop buf (d, h) =
  (tt, (d, h ++ chars_wire (Addr (c d)) (backlight_state d)
                  (CharDelay (opts d)) buf)).
Proof.
  intros Hbuf. revert h.
  induction Hbuf as [| ch rest Hch _ IH]; intros h; cbn [Write_loop chars_wire].
  - unfold ret. now rewrite app_nil_r.
  - rewrite bind_run, write_run by assumption. cbn [fst snd].
    rewrite bind_run. unfold self. cbn [fst snd].
    rewrite bind_run, Sleep_run. cbn [fst snd].
    rewrite IH. now rewrite <- !app_assoc.
Qed.

(** X4. [Write] sends every byte of the buffer in order, each as a data byte
    (register-select high) followed by a sleep of the configured character
    delay; it returns the length of the buffer and no error, and leaves the
    device record as it was.  An empty buffer touches nothing. *)
Theorem Write_sends_buffer (buf : list Z) (d : Dev) (h : trace) :
  Forall (fun ch => 0 <= ch < 256) buf ->
  Write buf (d, h) =
    ((Z.of_nat (length buf), None),
     (d, h ++ chars_wire (Addr (c d)) (backlight_state d)
               (CharDelay (opts d)) buf))
  /\ Write [] (d, h) = ((0, None), (d, h)).
Proof.
  intros Hbuf. split.
  - unfold Write. rewrite bind_run, Write_loop_run by assumption. reflexivity.
  - unfold Write. rewrite bind_run. cbn. reflexivity.
Qed.

Lemma Write_sends_buffer_witness :
  Write [0x48; 0x69] (fresh_dev bus_ok DefaultOpts 0x27, []) =
    ((2, None),
     (fresh_dev bus_ok DefaultOpts 0x27,
      byte_wire 0x27 false 0x48 false ++ [EvSleep 1000000]
      ++ byte_wire 0x27 false 0x69 false ++ [EvSleep 1000000]))
  /\ Write [] (fresh_dev bus_ok DefaultOpts 0x27, [])
     = ((0, None), (fresh_dev bus_ok DefaultOpts 0x27, [])).
Proof.
  apply (Write_sends_buffer [0x48; 0x69] (fresh_dev bus_ok DefaultOpts 0x27) []).
  repeat constructor; lia.
Defined.

Lemma chars_wire_inj a bl delay buf buf' :
  Forall (fun ch => 0 <= ch < 256) buf ->
  Forall (fun ch => 0 <= ch < 256) buf' ->
  chars_wire a bl delay buf = chars_wire a bl delay buf' -> buf = buf'.
Proof.
  intros Hbuf. revert buf'.
  induction Hbuf as [| ch rest Hch _ IH]; intros buf' Hbuf' H;
    destruct Hbuf' as [| ch' rest' Hch' Hrest']; cbn [chars_wire] in H.
  - reflexivity.
  - unfold byte_wire, pulse in H. discriminate.
  - unfold byte_wire, pulse in H. discriminate.
  - apply byte_wire_inj in H; [| assumption | assumption].
    destruct H as [-> [_ H]]. cbn [app] in H. injection H as H.
    f_equal. apply IH; assumption.
Qed.

(** X5. The text can be read back off the bus: two buffers for which [Write]
    produces the same bus traffic are the same buffer. *)
Theorem Write_injective (buf buf' : list Z) (d : Dev) (h : trace) :
  Forall (fun ch => 0 <= ch < 256) buf ->
  Forall (fun ch => 0 <= ch < 256) buf' ->
  snd (snd (Write buf (d, h))) = snd (snd (Write buf' (d, h))) ->
  buf = buf'.
Proof.
  intros Hbuf Hbuf' H. unfold Write in H.
  rewrite !bind_run, !Write_loop_run in H by assumption.
  cbn [fst snd ret] in H. apply app_inv_head in H.
  apply chars_wire_inj in H; assumption.
Qed.

Lemma Write_injective_witness : [0x48; 0x69] = [0x48; 0x69].
Proof.
  apply (Write_injective [0x48; 0x69] [0x48; 0x69]
           (fresh_dev bus_ok DefaultOpts 0x27) []);
    [repeat constructor; lia | repeat constructor; lia | reflexivity].
Defined.

(** ** What a transfer costs *)

Lemma count_writes_app t t' :
  count_writes (t ++ t') = (count_writes t + count_writes t')%nat.
Proof. unfold count_writes. now rewrite filter_app, length_app. Qed.

Lemma sleep_total_app t t' :
  sleep_total (t ++ t') = sleep_total t + sleep_total t'.
Proof.
  induction t as [| e t IH]; cbn [app sleep_total]; [reflexivity |].
  destruct e; rewrite IH; lia.
Qed.

(** The shape of what [write] emits, for any argument. *)
Lemma write_shape data is_command d h :
  exists x y,
    write data is_command (d, h) =
    (tt, (d, h ++ pulse (Addr (c d)) x ++ pulse (Addr (c d)) y)).
Proof.
  unfold write. cbv zeta. rewrite bind_run, enable_run. cbn [fst snd].
  rewrite enable_run, <- app_assoc. eexists. eexists. reflexivity.
Qed.

Lemma Write_loop_cost buf d h :
  exists out,
    Write_loop buf (d, h) = (tt, (d, h ++ out))
    /\ count_writes out = (6 * length buf)%nat
    /\ sleep_total out
       = Z.of_nat (length buf)
         * (160 * time.Microsecond + Z.max 0 (CharDelay (opts d))).
Proof.
  revert h. induction buf as [| ch rest IH]; intros h; cbn [Write_loop].
  - exists []. rewrite app_nil_r. repeat split.
  - rewrite bind_run.
    destruct (write_shape ch false d h) as [x [y E]]. rewrite E. cbn [fst snd].
    rewrite bind_run. unfold self. cbn [fst snd].
    rewrite bind_run, Sleep_run. cbn [fst snd].
    destruct (IH ((h ++ pulse (Addr (c d)) x ++ pulse (Addr (c d)) y)
                  ++ [EvSleep (CharDelay (opts d))])) as [out [E' [Hn Hs]]].
    exists (pulse (Addr (c d)) x ++ pulse (Addr (c d)) y
            ++ [EvSleep (CharDelay (opts d))] ++ out).
    repeat split.
    + refine (eq_trans E' _). now rewrite <- !app_assoc.
    + rewrite !count_writes_app, Hn. cbn [length]. unfold pulse, count_writes.
      cbn [filter is_write length]. lia.
    + rewrite !sleep_total_app, Hs. cbn [length]. unfold pulse.
      cbn [sleep_total]. unfold time.Microsecond, time.Nanosecond. lia.
Qed.

(** X6. Sending a buffer of [n] bytes with [Write] always takes [6 * n] bus
    transactions and [n * (160 microseconds + CharDelay)] of sleep, a
    negative [CharDelay] counting as none, whatever the bytes are and
    whatever the bus answers. *)
Theorem Write_cost (buf : list Z) (d : Dev) (h : trace) :
  exists out,
    snd (Write buf (d, h)) = (d, h ++ out)
    /\ count_writes out = (6 * length buf)%nat
    /\ sleep_total out
       = Z.of_nat (length buf)
         * (160 * time.Microsecond + Z.max 0 (CharDelay (opts d))).
Proof.
  destruct (Write_loop_cost buf d h) as [out [E [Hn Hs]]].
  exists out. repeat split; try assumption.
  unfold Write. rewrite bind_run, E. reflexivity.
Qed.

(** With a character delay of -5 ms, one byte costs the 160 microseconds of
    its two enable pulses and nothing more. *)
Example Write_cost_negative_delay :
  sleep_total
    (snd (snd (Write [0x41]
                 (fresh_dev bus_ok (mkOpts 0x27 2 16 (-5000000)) 0x27, []))))
  = 160000.
Proof. reflexivity. Qed.

(** ** The remaining character and command calls *)

(** X7. [WriteChar] sends the character as a data byte and then a
    cursor-shift-left command (0x10); it returns no error and leaves the
    device record as it was. *)
Theorem WriteChar_then_cursor_left (char : Z) (d : Dev) (h : trace) :
  0 <= char < 256 ->
  WriteChar char (d, h) =
    (None, (d, h ++ byte_wire (Addr (c d)) (backlight_state d) char false
                 ++ byte_wire (Addr (c d)) (backlight_state d) 0x10 true)).
Proof.
  intros Hc. unfold WriteChar, CursorShift. cbv zeta.
  rewrite bind_run, write_run by assumption. cbn [fst snd].
  rewrite bind_run, command_run by (vm_compute; split; congruence).
  cbn [fst snd]. unfold ret. now rewrite <- app_assoc.
Qed.

Lemma WriteChar_then_cursor_left_witness :
  WriteChar 0x41 (fresh_dev bus_ok DefaultOpts 0x27, []) =
    (None, (fresh_dev bus_ok DefaultOpts 0x27,
            [] ++ byte_wire 0x27 false 0x41 false ++ byte_wire 0x27 false 0x10 true)).
Proof.
  apply (WriteChar_then_cursor_left 0x41 (fresh_dev bus_ok DefaultOpts 0x27) []).
  lia.
Defined.

Lemma lor_0x40_range char : 0 <= char < 256 -> 0x40 <= Z.lor 0x40 char < 256.
Proof.
  intros Hc.
  assert (E : Z.lor 0x40 char = pinInterpret D6 char true)
    by (unfold pinInterpret; cbv zeta; apply Z.lor_comm).
  pose proof (pinInterpret_range D6 char true ltac:(unfold D6; lia) Hc) as Hr.
  pose proof (pinInterpret_bits D6 char true D6 ltac:(unfold D6; lia) Hc
                ltac:(unfold D6; lia)) as Hb.
  rewrite Z.eqb_refl in Hb. rewrite <- E in Hr, Hb.
  apply Z.testbit_true in Hb; [| unfold D6; lia].
  unfold D6 in Hb. change (2 ^ 6) with 64 in Hb.
  split; [| lia]. Z.div_mod_to_equations. lia.
Qed.

(** X8. [WriteCell] forces bit 6 of its argument before sending it as a data
    byte, so the byte that goes out lies in 0x40..0xFF and an argument with
    bit 6 already set goes out as it is: [WriteCell c] and
    [WriteCell (0x40 | c)] do the same. *)
Theorem WriteCell_forces_bit6 (char : Z) (d : Dev) (h : trace) :
  0 <= char < 256 ->
  WriteCell char (d, h) =
    (tt, (d, h ++ byte_wire (Addr (c d)) (backlight_state d)
                    (Z.lor 0x40 char) false))
  /\ 0x40 <= Z.lor 0x40 char < 256
  /\ WriteCell (Z.lor 0x40 char) (d, h) = WriteCell char (d, h).
Proof.
  intros Hc. pose proof (lor_0x40_range char Hc) as Hr. repeat apply conj.
  - unfold WriteCell. apply write_run. lia.
  - apply Hr.
  - apply Hr.
  - unfold WriteCell. now rewrite Z.lor_assoc, Z.lor_diag.
Qed.

Lemma WriteCell_forces_bit6_witness :
  WriteCell 0x05 (fresh_dev bus_ok DefaultOpts 0x27, []) =
    (tt, (fresh_dev bus_ok DefaultOpts 0x27,
          [] ++ byte_wire 0x27 false (Z.lor 0x40 0x05) false)).
Proof.
  apply (WriteCell_forces_bit6 0x05 (fresh_dev bus_ok DefaultOpts 0x27) []).
  lia.
Defined.

(** X9. The one-shot commands send exactly one command byte each and leave
    the device record as it was: [Clear] 0x01, [Home] 0x02, [DisplayShift]
    0x18 to the left and 0x1C to the right, [CursorShift] 0x10 to the left
    and 0x14 to the right. *)
Theorem one_shot_commands (to_right : bool) (d : Dev) (h : trace) :
  let wire := byte_wire (Addr (c d)) (backlight_state d) in
  Clear (d, h) = (tt, (d, h ++ wire 0x01 true))
  /\ Home (d, h) = (tt, (d, h ++ wire 0x02 true))
  /\ DisplayShift to_right (d, h)
     = (tt, (d, h ++ wire (if to_right then 0x1C else 0x18) true))
  /\ CursorShift to_right (d, h)
     = (tt, (d, h ++ wire (if to_right then 0x14 else 0x10) true)).
Proof.
  cbv zeta. unfold Clear, Home, DisplayShift, CursorShift. cbv zeta.
  repeat apply conj; try destruct to_right;
    rewrite command_run by (vm_compute; split; congruence); reflexivity.
Qed.

Lemma SetBacklight_run on d h :
  SetBacklight on (d, h) =
  (tt, (set_backlight_state on d,
        h ++ [EvWrite (Addr (c d)) 0 (if on then 0x08 else 0x00)])).
Proof.
  unfold SetBacklight. rewrite bind_run. unfold WriteUint8, modify.
  cbn [fst snd]. destruct on; reflexivity.
Qed.

(** X10. [Halt] sends the clear-display command with the backlight as the
    flag had it, then one raw write of 0x00 that takes every expander pin
    low, backlight included; it sets the backlight flag to false and returns
    no error.  [SetBacklight] on its own makes one raw write, 0x08 or 0x00,
    without an enable pulse, and sets the flag. *)
Theorem Halt_clears_and_darkens (on : bool) (d : Dev) (h : trace) :
  Halt (d, h) =
    (None, (set_backlight_state false d,
            h ++ byte_wire (Addr (c d)) (backlight_state d) 0x01 true
              ++ [EvWrite (Addr (c d)) 0 0x00]))
  /\ SetBacklight on (d, h) =
       (tt, (set_backlight_state on d,
             h ++ [EvWrite (Addr (c d)) 0 (if on then 0x08 else 0x00)])).
Proof.
  split; [| apply SetBacklight_run].
  unfold Halt, Clear. rewrite bind_run.
  rewrite command_run by (vm_compute; split; congruence). cbn [fst snd].
  rewrite bind_run, SetBacklight_run. cbn [fst snd]. unfold ret.
  now rewrite <- app_assoc.
Qed.

(** ** Invariants of whole sessions *)

Section Frames.

Variable R : Dev -> Dev -> Prop.
Variable P : Dev -> event -> Prop.

Hypothesis R_refl : forall d, R d d.
Hypothesis R_trans : forall d1 d2 d3, R d1 d2 -> R d2 d3 -> R d1 d3.
Hypothesis P_back : forall d d' e, R d d' -> P d' e -> P d e.
Hypothesis P_sleep : forall d ns, P d (EvSleep ns).
Hypothesis P_pulse : forall d data,
  Forall (P d) (pulse (Addr (c d))
                  (pinInterpret BACKLIGHT data (backlight_state d))).
Hypothesis R_displayShift : forall v d, R d (set_displayShift v d).
Hypothesis R_shiftRight : forall v d, R d (set_shiftRight v d).

Lemma frames_ret {A} (a : A) : frames R P (ret a).
Proof.
  intros d h. split; [apply R_refl |].
  exists []. split; [now rewrite app_nil_r | constructor].
Qed.

Lemma frames_self : frames R P self.
Proof.
  intros d h. split; [apply R_refl |].
  exists []. split; [now rewrite app_nil_r | constructor].
Qed.

Lemma frames_bind {A B} (m : M A) (k : A -> M B) :
  frames R P m -> (forall a, frames R P (k a)) -> frames R P (bind m k).
Proof.
  intros Hm Hk d h. rewrite bind_run.
  destruct (Hm d h) as [HR1 [o1 [E1 HP1]]].
  destruct (m (d, h)) as [a [d1 h1]]. cbn [fst snd] in *. subst h1.
  destruct (Hk a d1 (h ++ o1)) as [HR2 [o2 [E2 HP2]]].
  split; [eapply R_trans; eassumption |].
  exists (o1 ++ o2). split; [now rewrite E2, app_assoc |].
  apply Forall_app. split; [exact HP1 |].
  eapply Forall_impl; [| exact HP2].
  intros e He. eapply P_back; eassumption.
Qed.

Lemma frames_Sleep ns : frames R P (Sleep ns).
Proof.
  intros d h. rewrite Sleep_run. cbn [fst snd]. split; [apply R_refl |].
  exists [EvSleep ns]. split; [reflexivity |].
  constructor; [apply P_sleep | constructor].
Qed.

Lemma frames_modify f : (forall d, R d (f d)) -> frames R P (modify f).
Proof.
  intros Hf d h. unfold modify. cbn [fst snd]. split; [apply Hf |].
  exists []. split; [now rewrite app_nil_r | constructor].
Qed.

Lemma frames_enable data : frames R P (enable data).
Proof.
  intros d h. rewrite enable_run. cbn [fst snd]. split; [apply R_refl |].
  eexists. split; [reflexivity | apply P_pulse].
Qed.

Ltac frames_step :=
  lazymatch goal with
  | |- frames _ _ (bind _ _) => apply frames_bind; [| intros ?]
  | |- frames _ _ (ret _) => apply frames_ret
  | |- frames _ _ self => apply frames_self
  | |- frames _ _ (Sleep _) => apply frames_Sleep
  | |- frames _ _ (enable _) => apply frames_enable
  | |- frames _ _ (modify _) => apply frames_modify; intros ?
  | |- _ => assumption
  end.

Lemma frames_write data is_command : frames R P (write data is_command).
Proof. unfold write. cbv zeta. repeat frames_step. Qed.

Lemma frames_command data : frames R P (command data).
Proof. unfold command. apply frames_write. Qed.

Lemma frames_writeEntryMode : frames R P writeEntryMode.
Proof.
  unfold writeEntryMode. apply frames_bind; [apply frames_self |].
  intros d. apply frames_command.
Qed.

Lemma frames_Write_loop buf : frames R P (Write_loop buf).
Proof.
  induction buf as [| ch rest IH]; cbn [Write_loop]; [apply frames_ret |].
  apply frames_bind; [apply frames_write | intros _].
  repeat frames_step.
Qed.

Lemma frames_SetPosition line pos : frames R P (SetPosition line pos).
Proof.
  unfold SetPosition. apply frames_bind; [apply frames_self |].
  intros d. destruct (_ >? _); [apply frames_ret |].
  destruct (_ >? _); [apply frames_ret |].
  apply frames_bind; [apply frames_command | intros _; apply frames_ret].
Qed.

Lemma frames_then_ret {A B} (m : M A) (r : B) :
  frames R P m -> frames R P (m ;; ret r).
Proof. intros Hm. apply frames_bind; [exact Hm | intros _; apply frames_ret]. Qed.

Lemma frames_nibble_call k : nibble_path k = true -> frames R P (invoke k).
Proof.
  destruct k; cbn [nibble_path invoke]; intros Hk; try discriminate.
  - apply frames_then_ret. unfold Clear. apply frames_command.
  - apply frames_then_ret. unfold Home. apply frames_command.
  - apply frames_SetPosition.
  - unfold Write.
    apply frames_bind; [| intros r; apply frames_ret].
    apply frames_then_ret. apply frames_Write_loop.
  - unfold WriteChar.
    apply frames_bind; [apply frames_write | intros _].
    apply frames_then_ret. unfold CursorShift. cbv zeta. apply frames_command.
  - unfold Right. repeat frames_step.
  - apply frames_then_ret. unfold SetDisplayShift.
    apply frames_bind; [| intros _; apply frames_writeEntryMode].
    apply frames_modify. apply R_displayShift.
  - apply frames_then_ret. unfold SetShiftRight.
    apply frames_bind; [| intros _; apply frames_writeEntryMode].
    apply frames_modify. apply R_shiftRight.
  - apply frames_then_ret. unfold DisplayShift. cbv zeta. apply frames_command.
  - apply frames_then_ret. unfold CursorShift. cbv zeta. apply frames_command.
  - apply frames_then_ret. unfold WriteCell. apply frames_write.
Qed.

Lemma frames_invoke_list ks :
  (forall k, In k ks -> frames R P (invoke k)) ->
  frames R P (invoke_all ks).
Proof.
  induction ks as [| k ks IH]; cbn [invoke_all]; intros H.
  - apply frames_ret.
  - apply frames_bind; [apply H; now left | intros _].
    apply IH. intros k' Hk'. apply H. now right.
Qed.

End Frames.

Lemma same_config_refl d : same_config d d.
Proof. repeat split. Qed.

Lemma same_config_trans d1 d2 d3 :
  same_config d1 d2 -> same_config d2 d3 -> same_config d1 d3.
Proof. unfold same_config. intuition congruence. Qed.

Lemma to_device_back d d' e : same_config d d' -> to_device d' e -> to_device d e.
Proof.
  intros (_ & _ & _ & _ & Hc & _). destruct e; cbn [to_device]; [| trivial].
  now rewrite Hc.
Qed.

Lemma to_device_pulse d data :
  Forall (to_device d)
    (pulse (Addr (c d)) (pinInterpret BACKLIGHT data (backlight_state d))).
Proof. unfold pulse. repeat constructor. Qed.

Lemma config_SetBacklight on : frames same_config to_device (SetBacklight on).
Proof.
  intros d h. rewrite SetBacklight_run. cbn [fst snd].
  split; [repeat split |].
  eexists. split; [reflexivity | repeat constructor].
Qed.

Lemma config_invoke k : frames same_config to_device (invoke k).
Proof.
  destruct (nibble_path k) eqn:Hk.
  - apply frames_nibble_call; try assumption; intros;
      first [ apply same_config_refl | eapply same_config_trans; eassumption
            | eapply to_device_back; eassumption | exact I
            | apply to_device_pulse | repeat split ].
  - destruct k; try discriminate; cbn [invoke].
    + unfold Halt.
      apply (frames_bind _ _ same_config_trans to_device_back).
      * unfold Clear.
        apply (frames_command _ _ same_config_refl same_config_trans
                 to_device_back to_device_pulse).
      * intros _.
        apply (frames_then_ret _ _ same_config_refl same_config_trans
                 to_device_back).
        apply config_SetBacklight.
    + apply (frames_then_ret _ _ same_config_refl same_config_trans
               to_device_back).
      apply config_SetBacklight.
Qed.

(** X11. No sequence of public calls changes the configuration of a device:
    the options, the connection and its address, and the display-enabled,
    cursor and blink flags stay as the construction set them.  Every bus
    write of the sequence goes to register 0 of the device's own address. *)
Theorem calls_keep_configuration (ks : list call) (d : Dev) (h : trace) :
  same_config d (fst (snd (invoke_all ks (d, h))))
  /\ exists out, snd (snd (invoke_all ks (d, h))) = h ++ out
                 /\ Forall (to_device d) out.
Proof.
  apply (frames_invoke_list _ _ same_config_refl same_config_trans
           to_device_back).
  intros k _. apply config_invoke.
Qed.

Lemma backlight_bit_is_flag data (v : bool) :
  Z.testbit (pinInterpret BACKLIGHT data v) BACKLIGHT = v.
Proof.
  destruct v; [apply backlight_bit_set |].
  unfold pinInterpret. cbv zeta. rewrite Z.land_spec.
  change (Z.testbit (Z.lxor (Z.shiftl 1 BACKLIGHT mod 256) 255) BACKLIGHT)
    with false.
  apply andb_false_r.
Qed.

Lemma shows_flag_pulse d data :
  Forall (shows_flag d)
    (pulse (Addr (c d)) (pinInterpret BACKLIGHT data (backlight_state d))).
Proof.
  unfold pulse. repeat constructor; cbn [shows_flag];
    try (rewrite Z.setbit_neq by (unfold EN, BACKLIGHT; lia));
    apply backlight_bit_is_flag.
Qed.

Lemma shows_flag_back d d' e :
  same_backlight d d' -> shows_flag d' e -> shows_flag d e.
Proof.
  unfold same_backlight. intros H. destruct e; cbn [shows_flag]; [| trivial].
  now rewrite H.
Qed.

Lemma same_backlight_trans d1 d2 d3 :
  same_backlight d1 d2 -> same_backlight d2 d3 -> same_backlight d1 d3.
Proof. unfold same_backlight. congruence. Qed.

(** X12. The backlight bit on the bus follows the flag, on or off.
    [SetBacklight on] makes one raw write of 0x08 or 0x00; after it, whatever
    sequence of calls goes through the nibble path, every byte written has
    its backlight bit equal to [on], and the flag is still [on] at the end. *)
Theorem backlight_bit_follows_flag
  (on : bool) (ks : list call) (d : Dev) (h : trace) :
  forallb nibble_path ks = true ->
  snd (SetBacklight on (d, h)) =
    (set_backlight_state on d,
     h ++ [EvWrite (Addr (c d)) 0 (if on then 0x08 else 0x00)])
  /\ backlight_state
       (fst (snd (invoke_all ks (snd (SetBacklight on (d, h)))))) = on
  /\ exists out,
       snd (snd (invoke_all ks (snd (SetBacklight on (d, h)))))
       = (h ++ [EvWrite (Addr (c d)) 0 (if on then 0x08 else 0x00)]) ++ out
       /\ Forall (shows_flag (set_backlight_state on d)) out.
Proof.
  intros Hks. rewrite SetBacklight_run. cbn [snd]. split; [reflexivity |].
  assert (Hall : frames same_backlight shows_flag (invoke_all ks)).
  { apply (frames_invoke_list _ _ (fun d => eq_refl) same_backlight_trans
             shows_flag_back).
    intros k Hk. rewrite forallb_forall in Hks.
    apply frames_nibble_call; try (apply Hks, Hk);
      first [ exact (fun d => eq_refl) | exact same_backlight_trans
            | exact shows_flag_back | exact (fun _ _ => I)
            | exact shows_flag_pulse | exact (fun _ _ => eq_refl) ]. }
  destruct (Hall (set_backlight_state on d)
              (h ++ [EvWrite (Addr (c d)) 0 (if on then 0x08 else 0x00)]))
    as [HR [out [E HP]]].
  split; [exact HR |]. exists out. split; assumption.
Qed.

Lemma backlight_bit_follows_flag_witness :
  backlight_state
    (fst (snd (invoke_all [CWrite [0x41]; CHome]
                 (snd (SetBacklight false
                         (set_backlight_state true
                            (fresh_dev bus_ok DefaultOpts 0x27), [])))))) = false.
Proof.
  apply (backlight_bit_follows_flag false [CWrite [0x41]; CHome]
           (set_backlight_state true (fresh_dev bus_ok DefaultOpts 0x27)) []).
  reflexivity.
Defined.

(** ** Entry mode *)

(** X13. The two entry-mode setters, for either value: each stores its flag
    and sends one command byte, [4 + 2 * (not shift-right) + display-shift]
    computed from the flags as they are after the store, so the byte lies in
    0x04..0x07.  The setters write different fields: done in either order
    they leave the same device record. *)
Theorem entry_mode_setters (v w : bool) (d : Dev) (h : trace) :
  let after_v := 4 + 2 * b2z (negb (shiftRight d)) + b2z v in
  let after_w := 4 + 2 * b2z (negb w) + b2z (displayShift d) in
  SetDisplayShift v (d, h) =
    (tt, (set_displayShift v d,
          h ++ byte_wire (Addr (c d)) (backlight_state d) after_v true))
  /\ SetShiftRight w (d, h) =
       (tt, (set_shiftRight w d,
             h ++ byte_wire (Addr (c d)) (backlight_state d) after_w true))
  /\ 0x04 <= after_v <= 0x07 /\ 0x04 <= after_w <= 0x07
  /\ fst (snd ((SetShiftRight w ;; SetDisplayShift v) (d, h)))
     = fst (snd ((SetDisplayShift v ;; SetShiftRight w) (d, h))).
Proof.
  cbv zeta. repeat apply conj.
  - unfold SetDisplayShift. rewrite bind_run. unfold modify. cbn [fst snd].
    rewrite writeEntryMode_run. reflexivity.
  - unfold SetShiftRight. rewrite bind_run. unfold modify. cbn [fst snd].
    rewrite writeEntryMode_run. reflexivity.
  - unfold b2z. destruct (shiftRight d), v; cbn [negb]; lia.
  - unfold b2z. destruct (shiftRight d), v; cbn [negb]; lia.
  - unfold b2z. destruct w, (displayShift d); cbn [negb]; lia.
  - unfold b2z. destruct w, (displayShift d); cbn [negb]; lia.
  - unfold SetDisplayShift, SetShiftRight.
    repeat (rewrite bind_run; try rewrite writeEntryMode_run;
            unfold modify; cbn [fst snd]).
    reflexivity.
Qed.

(** ** More on positions *)

(** X14. On a display of at most 16 columns per line, distinct positions get
    distinct commands: for lines in 1..4 and columns in 0..15 within the
    configured bounds, two calls of [SetPosition] that put the same events on
    the bus were given the same line and the same column. *)
Theorem SetPosition_injective (line col line' col' : Z) (d : Dev) (h : trace) :
  1 <= line <= 4 -> 1 <= line' <= 4 ->
  line <= Lines (opts d) -> line' <= Lines (opts d) ->
  0 <= col < 16 -> 0 <= col' < 16 ->
  col <= Cols (opts d) -> col' <= Cols (opts d) ->
  snd (snd (SetPosition line col (d, h)))
  = snd (snd (SetPosition line' col' (d, h))) ->
  line = line' /\ col = col'.
Proof.
  intros Hl Hl' HL HL' Hc Hc' HC HC' H.
  rewrite !SetPosition_accepts in H by assumption. cbn [snd] in H.
  apply app_inv_head in H.
  rewrite <- (app_nil_r (byte_wire _ _ _ _)) in H.
  rewrite <- (app_nil_r (byte_wire _ _ ((_ + (if on_table line' then _ else _)) mod _) _)) in H.
  apply byte_wire_inj in H; try (apply Z.mod_pos_bound; reflexivity).
  destruct H as [H _]. unfold CMD_DDRAM_Set in H.
  assert (E : line = 1 \/ line = 2 \/ line = 3 \/ line = 4) by lia.
  assert (E' : line' = 1 \/ line' = 2 \/ line' = 3 \/ line' = 4) by lia.
  destruct E as [-> | [-> | [-> | ->]]];
    destruct E' as [-> | [-> | [-> | ->]]];
    cbn [on_table base Z.eqb Pos.eqb orb] in H;
    rewrite !Z.mod_small in H by lia; lia.
Qed.

Lemma SetPosition_injective_witness : 2 = 2 /\ 5 = 5.
Proof.
  apply (SetPosition_injective 2 5 2 5 (fresh_dev bus_ok DefaultOpts 0x27) []);
    cbn; try lia; reflexivity.
Defined.

(** X15. Past column 15 the lines overlap: line 3 starts at DDRAM address
    0x10, which is column 16 of line 1.  When both positions are within the
    configured bounds, [SetPosition 3 col] and [SetPosition 1 (col + 16)] do
    exactly the same. *)
Theorem SetPosition_line3_aliases_line1 (col : Z) (d : Dev) (h : trace) :
  3 <= Lines (opts d) -> col + 16 <= Cols (opts d) ->
  SetPosition 3 col (d, h) = SetPosition 1 (col + 16) (d, h).
Proof.
  intros HL HC. rewrite !SetPosition_accepts by lia.
  cbn [on_table base Z.eqb Pos.eqb orb].
  replace (CMD_DDRAM_Set + (0 + (col + 16))) with (CMD_DDRAM_Set + (16 + col))
    by lia.
  reflexivity.
Qed.

Lemma SetPosition_line3_aliases_line1_witness :
  SetPosition 3 2 (fresh_dev bus_ok (mkOpts 0x27 4 20 1000000) 0x27, [])
  = SetPosition 1 (2 + 16) (fresh_dev bus_ok (mkOpts 0x27 4 20 1000000) 0x27, []).
Proof.
  apply (SetPosition_line3_aliases_line1 2
           (fresh_dev bus_ok (mkOpts 0x27 4 20 1000000) 0x27) []); cbn; lia.
Defined.

(** X16. The line is checked first.  A line above the configured count gives
    the lines error whatever the column; with the line within bounds, a
    column above the configured count gives the columns error, which carries
    the line and the configured I2C address, not the offending column. *)
Theorem SetPosition_error_precedence (line col : Z) (d : Dev) (h : trace) :
  (line > Lines (opts d) ->
   fst (SetPosition line col (d, h)) = Some (ErrLines line (I2CAddr (opts d))))
  /\ (line <= Lines (opts d) -> col > Cols (opts d) ->
      fst (SetPosition line col (d, h)) = Some (ErrCols line (I2CAddr (opts d)))).
Proof.
  split.
  - intros Hl. rewrite SetPosition_rejects by (now left). cbn [fst].
    replace (line >? Lines (opts d)) with true
      by (symmetry; rewrite Z.gtb_ltb; apply Z.ltb_lt; lia).
    reflexivity.
  - intros Hl Hc. rewrite SetPosition_rejects by (now right). cbn [fst].
    now rewrite gtb_false by assumption.
Qed.

Lemma SetPosition_error_precedence_witness :
  fst (SetPosition 9 99 (fresh_dev bus_ok DefaultOpts 0x27, []))
  = Some (ErrLines 9 0x27).
Proof.
  apply (SetPosition_error_precedence 9 99 (fresh_dev bus_ok DefaultOpts 0x27) []).
  cbn. lia.
Defined.

(** ** What construction costs *)

(** X17. A construction with a supported address always makes 36 bus writes
    and sleeps 410.96 milliseconds in all, every byte it writes has the
    backlight bit clear, and the device it returns is bound to the resolved
    address and carries the options it was given. *)
Theorem NewI2C_cost (b : I2CBus) (o : option Opts) (h : trace) :
  legal_address (I2CAddr (opts_or_default o)) ->
  exists d out,
    NewI2C b o h = ((Some d, None), h ++ out)
    /\ opts d = opts_or_default o
    /\ Addr (c d) = (if I2CAddr (opts_or_default o) =? 0 then 0x27
                     else I2CAddr (opts_or_default o))
    /\ count_writes out = 36%nat
    /\ sleep_total out = 410 * time.Millisecond + 960 * time.Microsecond
    /\ Forall (shows_flag d) out.
Proof.
  intros Hlegal.
  assert (E : i2cAddr (opts_or_default o)
              = ((if I2CAddr (opts_or_default o) =? 0 then 0x27
                  else I2CAddr (opts_or_default o)), None)).
  { destruct Hlegal as [H0 | Hs].
    - rewrite H0. apply i2cAddr_zero, H0.
    - replace (I2CAddr (opts_or_default o) =? 0) with false
        by (symmetry; apply Z.eqb_neq; lia).
      apply i2cAddr_strapped, Hs. }
  eexists. eexists. split; [apply (NewI2C_accepts b o h _ E) |].
  repeat split.
  unfold init_wire, byte_wire, pulse. cbn [app].
  repeat constructor.
Qed.

Lemma NewI2C_cost_witness :
  exists d out,
    NewI2C bus_dead None [] = ((Some d, None), [] ++ out)
    /\ opts d = opts_or_default None
    /\ Addr (c d) = (if I2CAddr (opts_or_default None) =? 0 then 0x27
                     else I2CAddr (opts_or_default None))
    /\ count_writes out = 36%nat
    /\ sleep_total out = 410 * time.Millisecond + 960 * time.Microsecond
    /\ Forall (shows_flag d) out.
Proof.
  apply (NewI2C_cost bus_dead None []). right. cbn. lia.
Defined.
